(** * cryptopay: the invoice lifecycle and payment reconciliation service

    A shallow embedding of [cryptopay/service.py] (class
    [CryptoPaymentsService]).  The service is written against collaborator
    interfaces; its methods are embedded as computations in a state and
    exception monad over a [World] that holds the three record stores, the
    state of the outside world (clock, blockchain, key generator, rate
    oracle) and the log of collaborator calls made so far. *)

From Stdlib Require Import ZArith List String Bool Lia QArith Qpower.
Import ListNotations.
Local Open Scope string_scope.
Local Open Scope list_scope.
Local Open Scope Z_scope.

Set Implicit Arguments.

(** ** Python's [decimal.Decimal]

    Finite values only (no NaN, no infinities), as a triple of sign,
    coefficient and exponent, with the arithmetic context the module keeps
    per thread.  Rounding is [ROUND_HALF_EVEN] and [clamp] is 0, as in the
    default context; of the signals only [Overflow] is modelled, the one
    trapped by default among those a multiplication of finite values can
    raise. *)
Module Decimal.

Record t : Type := mk
  { sign : bool;     (* True for negative *)
    int  : Z;        (* the coefficient, a non-negative integer *)
    exp  : Z }.

Record Context : Type :=
  { prec : Z; Emin : Z; Emax : Z }.

Definition DefaultContext : Context :=
  {| prec := 28; Emin := -999999; Emax := 999999 |}.

Definition Etiny (c : Context) : Z := Emin c - prec c + 1.
Definition Etop  (c : Context) : Z := Emax c - prec c + 1.

Fixpoint len_fuel (fuel : nat) (n : Z) : Z :=
  match fuel with
  | O => 1
  | S fuel' => if n <? 10 then 1 else 1 + len_fuel fuel' (n / 10)
  end.

(** [len(self._int)]: the number of decimal digits of the coefficient. *)
Definition len (n : Z) : Z := len_fuel (Z.to_nat (Z.log2 n)) n.

(** [_round_half_even(self, digits)] on a coefficient from which the last
    [k] digits are dropped: 1 to round up, 0 when the dropped digits are
    all zero, -1 to round down. *)
Definition round_half_even (n k : Z) : Z :=
  let q := n / 10 ^ k in
  let r := n mod 10 ^ k in
  let half := 5 * 10 ^ (k - 1) in
  if (r =? half) && Z.even q then -1
  else if half <=? r then 1
  else if r =? 0 then 0
  else -1.

(** [Decimal._fix]: round to the context's precision and exponent range.
    [None] is the trapped [Overflow]. *)
Definition _fix (c : Context) (d : t) : option t :=
  if int d =? 0 then
    Some (mk (sign d) 0 (Z.min (Z.max (exp d) (Etiny c)) (Emax c)))
  else
    let exp_min := len (int d) + exp d - prec c in
    if Etop c <? exp_min then None
    else
      let exp_min := Z.max exp_min (Etiny c) in
      if exp d <? exp_min then
        let digits := len (int d) + exp d - exp_min in
        let '(n, digits) :=
          if digits <? 0 then (1, 0) else (int d, digits) in
        let k := len n - digits in
        let changed := round_half_even n k in
        let coeff := n / 10 ^ k in
        let '(coeff, exp_min) :=
          if 0 <? changed then
            if prec c <? len (coeff + 1)
            then ((coeff + 1) / 10, exp_min + 1)
            else (coeff + 1, exp_min)
          else (coeff, exp_min) in
        if Etop c <? exp_min then None
        else Some (mk (sign d) coeff exp_min)
      else Some d.

(** The exact product, before any rounding: the signs xor-ed, the
    coefficients multiplied, the exponents added. *)
Definition exact_mul (a b : t) : t :=
  mk (xorb (sign a) (sign b)) (int a * int b) (exp a + exp b).

(** [Decimal.__mul__]: the exact product, then [_fix]. *)
Definition mul (c : Context) (a b : t) : option t :=
  _fix c (exact_mul a b).

(** The rational number a finite decimal denotes. *)
Definition to_Q (d : t) : Q :=
  ((if sign d then -1 else 1) * int d # 1) * Qpower (10 # 1) (exp d).

End Decimal.

(** ** Data model ([cryptopay.enums], [cryptopay.models]) *)

Inductive InvoiceStatus : Type := PENDING | PAID | EXPIRED.

Definition InvoiceStatus_eqb (a b : InvoiceStatus) : bool :=
  match a, b with
  | PENDING, PENDING | PAID, PAID | EXPIRED, EXPIRED => true
  | _, _ => false
  end.

Definition bytes : Type := list Byte.byte.

Module WalletCredentials.
Record t : Type := mk { address : string; private_key : bytes }.
End WalletCredentials.

Module Wallet.
Record t : Type := mk
  { id : Z;
    user_id : Z;
    network : string;
    address : string;
    private_key_encrypted : bytes }.

Definition with_id (i : Z) (w : t) : t :=
  mk i (user_id w) (network w) (address w) (private_key_encrypted w).
End Wallet.

Module Invoice.
Record t : Type := mk
  { id : Z;
    user_id : Z;
    created_at : Z;
    updated_at : option Z;
    expires_at : option Z;
    status : InvoiceStatus;
    fiat_amount : option Decimal.t;
    fiat_currency : option string;
    crypto_amount : Decimal.t;
    crypto_currency : string;
    crypto_currency_address : option string;
    network : string }.

Definition with_id (i : Z) (v : t) : t :=
  mk i (user_id v) (created_at v) (updated_at v) (expires_at v) (status v)
     (fiat_amount v) (fiat_currency v) (crypto_amount v) (crypto_currency v)
     (crypto_currency_address v) (network v).

(** [invoice.status = s] *)
Definition with_status (s : InvoiceStatus) (v : t) : t :=
  mk (id v) (user_id v) (created_at v) (updated_at v) (expires_at v) s
     (fiat_amount v) (fiat_currency v) (crypto_amount v) (crypto_currency v)
     (crypto_currency_address v) (network v).
End Invoice.

Module Transaction.
Record t : Type := mk
  { id : Z;
    invoice_id : Z;
    hash : string;
    network : string }.

Definition with_id (i : Z) (x : t) : t :=
  mk i (invoice_id x) (hash x) (network x).
End Transaction.

Module ExchangeRate.
Record t : Type := mk
  { id : Z;
    rate : Decimal.t;
    reverted_rate : Decimal.t;
    fiat_currency : string;
    crypto_currency : string;
    last_updated_at : Z }.
End ExchangeRate.


(** ** Exceptions and the service monad

    Every [raise Exception(f"...")] of the service is a constructor that
    keeps the values formatted into the message.  A computation takes the
    world to a new world and either a value or a raised exception; what was
    written before an exception stays written, as in Python. *)

Inductive Exn : Type :=
| InvoiceNotFound (invoice_id : Z)
| WalletNotFound (user_id : Z) (network : string)
| ExchangeRateNotAvailable (fiat_currency network_name : string)
| DecimalOverflow
| IntegrityError (store : string)
| CollaboratorError (message : string).

Inductive Result (A : Type) : Type :=
| Ok (a : A)
| Raise (e : Exn).

Arguments Raise {A} e.

Definition M (W A : Type) : Type := W -> W * Result A.

Definition ret {W A : Type} (a : A) : M W A := fun w => (w, Ok a).

Definition raise {W A : Type} (e : Exn) : M W A := fun w => (w, Raise e).

Definition bind {W A B : Type} (m : M W A) (k : A -> M W B) : M W B :=
  fun w =>
    match m w with
    | (w', Ok a) => k a w'
    | (w', Raise e) => (w', Raise e)
    end.

Declare Scope service_scope.
Delimit Scope service_scope with service.
Notation "x <- m ;; k" := (bind m (fun x => k))
  (at level 100, m at next level, right associativity) : service_scope.
Notation "m ;;; k" := (bind m (fun _ => k))
  (at level 100, right associativity) : service_scope.

(** ** The world

    [Call] names the collaborator methods the service invokes; the world's
    [calls] lists them in the order they were made. *)

Inductive Call : Type :=
| wallet_repository_get_wallet_for_user (user_id : Z) (network : string)
| wallet_repository_save_wallet (wallet : Wallet.t)
| invoice_repository_save_invoice (invoice : Invoice.t)
| invoice_repository_get_invoice_by_id (invoice_id : Z)
| invoice_repository_update_invoice_status (invoice_id : Z) (status : InvoiceStatus)
| transaction_repository_get_transaction_by_hash_and_network (hash network : string)
| transaction_repository_save_transaction (transaction : Transaction.t)
| blockchain_reader_search_transactions_for_wallet (wallet : Wallet.t) (invoice : Invoice.t)
| network_client_generate_wallet
| network_client_get_network_name
| security_provider_encrypt_bytes (data : bytes)
| exchange_rate_provider_get_exchange_rate (fiat_currency crypto_currency : string)
| time_time.

Record World (E : Type) : Type := mkWorld
  { wallets : list Wallet.t;
    invoices : list Invoice.t;
    transactions : list Transaction.t;
    outside : E;
    calls : list Call }.

Definition set_wallets {E} (l : list Wallet.t) (w : World E) : World E :=
  mkWorld l (invoices w) (transactions w) (outside w) (calls w).

Definition set_invoices {E} (l : list Invoice.t) (w : World E) : World E :=
  mkWorld (wallets w) l (transactions w) (outside w) (calls w).

Definition set_transactions {E} (l : list Transaction.t) (w : World E) : World E :=
  mkWorld (wallets w) (invoices w) l (outside w) (calls w).

Definition set_outside {E} (e : E) (w : World E) : World E :=
  mkWorld (wallets w) (invoices w) (transactions w) e (calls w).

Definition called {E} (c : Call) (w : World E) : World E :=
  mkWorld (wallets w) (invoices w) (transactions w) (outside w) (calls w ++ [c]).

(** The identifier a store assigns to the next record it saves. *)
Definition next_id (ids : list Z) : Z := 1 + fold_right Z.max 0 ids.

(** ** The stores ([cryptopay.repositories]) *)

Module WalletRepository.
Section Store.
Variable E : Type.

Definition is_for (user_id : Z) (network : string) (w : Wallet.t) : bool :=
  (Wallet.user_id w =? user_id) && (Wallet.network w =? network)%string.

(** Modelled from the spec: the wallet store's
    [getByUserAndNetwork(userId, network) -> Wallet|absent], whose
    implementation is not among the sources; a read. *)
Definition get_wallet_for_user (user_id : Z) (network : string)
  : M (World E) (option Wallet.t) :=
  fun w =>
    (called (wallet_repository_get_wallet_for_user user_id network) w,
     Ok (find (is_for user_id network) (wallets w))).

(** Modelled from the spec: the wallet store's [save(Wallet) -> Wallet],
    whose implementation is not among the sources; it assigns the
    identifier and enforces uniqueness of (user, network). *)
Definition save_wallet (wallet : Wallet.t) : M (World E) Wallet.t :=
  fun w =>
    let w' := called (wallet_repository_save_wallet wallet) w in
    match find (is_for (Wallet.user_id wallet) (Wallet.network wallet)) (wallets w) with
    | Some _ => (w', Raise (IntegrityError "wallet"))
    | None =>
        let saved := Wallet.with_id (next_id (map Wallet.id (wallets w))) wallet in
        (set_wallets (wallets w ++ [saved]) w', Ok saved)
    end.
End Store.
End WalletRepository.

Module InvoiceRepository.
Section Store.
Variable E : Type.

Definition has_id (invoice_id : Z) (v : Invoice.t) : bool :=
  Invoice.id v =? invoice_id.

(** Modelled from the spec: the invoice store's [save(Invoice) -> Invoice],
    whose implementation is not among the sources; the service passes
    [id=0] for the store to set. *)
Definition save_invoice (invoice : Invoice.t) : M (World E) Invoice.t :=
  fun w =>
    let saved := Invoice.with_id (next_id (map Invoice.id (invoices w))) invoice in
    (set_invoices (invoices w ++ [saved])
       (called (invoice_repository_save_invoice invoice) w),
     Ok saved).

(** Modelled from the spec: the invoice store's
    [getById(id) -> Invoice|absent], whose implementation is not among the
    sources; a read. *)
Definition get_invoice_by_id (invoice_id : Z) : M (World E) (option Invoice.t) :=
  fun w =>
    (called (invoice_repository_get_invoice_by_id invoice_id) w,
     Ok (find (has_id invoice_id) (invoices w))).

(** Modelled from the spec: the invoice store's
    [updateStatus(id, status) -> Invoice], whose implementation is not
    among the sources; it rewrites the status of the stored invoice and
    returns the invoice as now stored. *)
Definition update_invoice_status (invoice_id : Z) (status : InvoiceStatus)
  : M (World E) Invoice.t :=
  fun w =>
    let w' := called (invoice_repository_update_invoice_status invoice_id status) w in
    match find (has_id invoice_id) (invoices w) with
    | None => (w', Raise (IntegrityError "invoice"))
    | Some v =>
        (set_invoices
           (map (fun x => if has_id invoice_id x
                          then Invoice.with_status status x else x)
                (invoices w)) w',
         Ok (Invoice.with_status status v))
    end.
End Store.
End InvoiceRepository.

Module TransactionRepository.
Section Store.
Variable E : Type.

Definition is_at (hash network : string) (x : Transaction.t) : bool :=
  ((Transaction.hash x =? hash) && (Transaction.network x =? network))%string.

(** Modelled from the spec: the transaction store's
    [getByHashAndNetwork(hash, network) -> Transaction|absent], whose
    implementation is not among the sources; a read. *)
Definition get_transaction_by_hash_and_network (hash network : string)
  : M (World E) (option Transaction.t) :=
  fun w =>
    (called (transaction_repository_get_transaction_by_hash_and_network hash network) w,
     Ok (find (is_at hash network) (transactions w))).

(** Modelled from the spec: the transaction store's
    [save(Transaction) -> Transaction], whose implementation is not among
    the sources; the record is stored as given, under a fresh surrogate
    identifier.  The store itself does not refuse a second record at the
    same (hash, network): the service's own check is what keeps them
    unique. *)
Definition save_transaction (transaction : Transaction.t)
  : M (World E) Transaction.t :=
  fun w =>
    let saved :=
      Transaction.with_id (next_id (map Transaction.id (transactions w))) transaction in
    (set_transactions (transactions w ++ [saved])
       (called (transaction_repository_save_transaction transaction) w),
     Ok saved).
End Store.
End TransactionRepository.

(** ** The outside collaborators ([cryptopay.interfaces])

    The blockchain reader, the network client, the security provider and the
    exchange-rate provider are interfaces whose behaviour the service does
    not own: each method is an arbitrary function of the outside state [E],
    which it may change and which may make it raise.  The clock
    ([time.time]) and the thread's decimal context
    ([decimal.getcontext]) are read from the same state. *)

Record Collaborators (E : Type) : Type :=
  { now : E -> Z;
    getcontext : E -> Decimal.Context;
    search_transactions_for_wallet :
      Wallet.t -> Invoice.t -> E -> E * Result (option Transaction.t);
    generate_wallet : E -> E * Result WalletCredentials.t;
    get_network_name : E -> E * Result string;
    encrypt_bytes : bytes -> E -> E * Result bytes;
    get_exchange_rate :
      string -> string -> E -> E * Result (option ExchangeRate.t) }.

(** One call of an outside collaborator: logged, then run on the outside
    state. *)
Definition collaborate {E A} (c : Call) (f : E -> E * Result A) : M (World E) A :=
  fun w =>
    let '(e, r) := f (outside w) in
    (set_outside e (called c w), r).

(** ** The service ([cryptopay/service.py]) *)

Module CryptoPaymentsService.
Section Service.
Variable E : Type.
Variable self : Collaborators E.

Local Open Scope service_scope.

(** [int(time.time())] *)
Definition current_unix_time : M (World E) Z :=
  fun w => (called time_time w, Ok (now self (outside w))).

(** The [*] of two [Decimal]s, under the thread's context. *)
Definition decimal_mul (a b : Decimal.t) : M (World E) Decimal.t :=
  fun w =>
    match Decimal.mul (getcontext self (outside w)) a b with
    | Some d => (w, Ok d)
    | None => (w, Raise DecimalOverflow)
    end.

Definition network_name : M (World E) string :=
  collaborate network_client_get_network_name (get_network_name self).

Definition get_wallet_for_user (user_id : Z) (network : string)
  : M (World E) Wallet.t :=
  (* Step 1: Try to get from repository *)
  existing_wallet <- WalletRepository.get_wallet_for_user user_id network ;;
  match existing_wallet with
  | Some existing_wallet => ret existing_wallet
  | None =>
      (* Step 2: Generate wallet with help of NetworkClient *)
      wallet_credentials <-
        collaborate network_client_generate_wallet (generate_wallet self) ;;
      (* Step 3: Encrypt private_key with SecurityProvider *)
      private_key_encrypted <-
        collaborate
          (security_provider_encrypt_bytes
             (WalletCredentials.private_key wallet_credentials))
          (encrypt_bytes self (WalletCredentials.private_key wallet_credentials)) ;;
      (* Step 4: Save it to repository *)
      WalletRepository.save_wallet
        (Wallet.mk 0 user_id network
           (WalletCredentials.address wallet_credentials)
           private_key_encrypted)
  end.

Definition create_fiat_invoice
  (user_id : Z) (network : string) (fiat_amount : Decimal.t)
  (fiat_currency : string) (expires_at : option Z) : M (World E) Invoice.t :=
  (* Step 1: Get exchange rate *)
  crypto_currency <- network_name ;;
  exchange_rate_data <-
    collaborate
      (exchange_rate_provider_get_exchange_rate fiat_currency crypto_currency)
      (get_exchange_rate self fiat_currency crypto_currency) ;;
  match exchange_rate_data with
  | None =>
      name <- network_name ;;
      raise (ExchangeRateNotAvailable fiat_currency name)
  | Some exchange_rate_data =>
      (* Calculate crypto amount from fiat amount *)
      crypto_amount <-
        decimal_mul fiat_amount (ExchangeRate.reverted_rate exchange_rate_data) ;;
      (* Step 2: Get wallet for user *)
      wallet <- get_wallet_for_user user_id network ;;
      (* Step 3: Create and save invoice *)
      current_time <- current_unix_time ;;
      crypto_currency <- network_name ;;
      InvoiceRepository.save_invoice
        (Invoice.mk 0 user_id current_time (Some current_time) expires_at
           PENDING (Some fiat_amount) (Some fiat_currency) crypto_amount
           crypto_currency None network)
  end.

Definition create_crypto_invoice
  (user_id : Z) (network : string) (crypto_amount : Decimal.t)
  (crypto_currency : string) (crypto_currency_address : option string)
  (expires_at : option Z) : M (World E) Invoice.t :=
  (* Step 1: Get wallet for user *)
  wallet <- get_wallet_for_user user_id network ;;
  (* Step 2: Create and save invoice *)
  current_time <- current_unix_time ;;
  InvoiceRepository.save_invoice
    (Invoice.mk 0 user_id current_time (Some current_time) expires_at
       PENDING None None crypto_amount crypto_currency
       crypto_currency_address network).

(** [invoice.expires_at and current_time > invoice.expires_at]: an
    [Optional[int]] is true when it is neither [None] nor 0. *)
Definition has_expired (invoice : Invoice.t) (current_time : Z) : bool :=
  match Invoice.expires_at invoice with
  | None => false
  | Some expires_at => negb (expires_at =? 0) && (expires_at <? current_time)
  end.

(** The service assigns [invoice.status] on its own copy just before each
    [update_invoice_status]; the store then holds the same status whether
    or not it shares that object, so the assignment shows only in the
    invoice the PAID branch returns. *)
Definition check_invoice_status (invoice_id : Z) : M (World E) Invoice.t :=
  (* Step 1: Get invoice from repository *)
  invoice <- InvoiceRepository.get_invoice_by_id invoice_id ;;
  match invoice with
  | None => raise (InvoiceNotFound invoice_id)
  | Some invoice =>
      (* Step 2: Check "status is PENDING" (if not it is final step) *)
      if negb (InvoiceStatus_eqb (Invoice.status invoice) PENDING)
      then ret invoice
      else
        (* Check if invoice has expired *)
        current_time <- current_unix_time ;;
        if has_expired invoice current_time
        then InvoiceRepository.update_invoice_status invoice_id EXPIRED
        else
          (* Step 3: Get transaction by blockchain reader *)
          wallet <-
            WalletRepository.get_wallet_for_user
              (Invoice.user_id invoice) (Invoice.network invoice) ;;
          match wallet with
          | None =>
              raise (WalletNotFound (Invoice.user_id invoice)
                                    (Invoice.network invoice))
          | Some wallet =>
              transaction <-
                collaborate
                  (blockchain_reader_search_transactions_for_wallet wallet invoice)
                  (search_transactions_for_wallet self wallet invoice) ;;
              match transaction with
              | None =>
                  (* If we can't get transaction, check expired and it is
                     final step *)
                  if has_expired invoice current_time
                  then InvoiceRepository.update_invoice_status invoice_id EXPIRED
                  else ret invoice
              | Some transaction =>
                  (* Step 4: Check if such transaction already in repository *)
                  existing_transaction <-
                    TransactionRepository.get_transaction_by_hash_and_network
                      (Transaction.hash transaction)
                      (Transaction.network transaction) ;;
                  match existing_transaction with
                  | Some _ =>
                      (* If same transaction was already saved, check
                         expired and it is final step *)
                      if has_expired invoice current_time
                      then InvoiceRepository.update_invoice_status invoice_id EXPIRED
                      else ret invoice
                  | None =>
                      (* Step 5: Save transaction to repository *)
                      TransactionRepository.save_transaction transaction ;;;
                      (* Step 6: Update invoice status *)
                      InvoiceRepository.update_invoice_status invoice_id PAID ;;;
                      ret (Invoice.with_status PAID invoice)
                  end
              end
          end
  end.

Definition get_invoice_status (invoice_id : Z) : M (World E) InvoiceStatus :=
  invoice <- InvoiceRepository.get_invoice_by_id invoice_id ;;
  match invoice with
  | None => raise (InvoiceNotFound invoice_id)
  | Some invoice => ret (Invoice.status invoice)
  end.

End Service.
End CryptoPaymentsService.

(** ** Callers and scenarios *)

(** A poller: [n] successive calls of [check_invoice_status] on one invoice,
    whatever each returns.  [polled] is the world they leave. *)
Fixpoint polled {E} (self : Collaborators E) (invoice_id : Z) (n : nat)
  (w : World E) : World E :=
  match n with
  | O => w
  | S n' =>
      polled self invoice_id n'
        (fst (CryptoPaymentsService.check_invoice_status self invoice_id w))
  end.

(** Two successive calls of [get_wallet_for_user]: the world they leave and
    both results. *)
Definition get_wallet_twice {E} (self : Collaborators E) (user_id : Z)
  (network : string) (w : World E)
  : World E * (Result Wallet.t * Result Wallet.t) :=
  let '(w1, r1) := CryptoPaymentsService.get_wallet_for_user self user_id network w in
  let '(w2, r2) := CryptoPaymentsService.get_wallet_for_user self user_id network w1 in
  (w2, (r1, r2)).

Definition is_paid_update (invoice_id : Z) (c : Call) : bool :=
  match c with
  | invoice_repository_update_invoice_status i PAID => i =? invoice_id
  | _ => false
  end.

(** How many times the log shows the invoice being set to PAID. *)
Definition paid_transitions (invoice_id : Z) (l : list Call) : nat :=
  List.length (filter (is_paid_update invoice_id) l).

(** How many stored transactions carry this (hash, network). *)
Definition stored_at (hash network : string) (l : list Transaction.t) : nat :=
  List.length (filter (TransactionRepository.is_at hash network) l).

(** How many stored wallets belong to this (user, network). *)
Definition wallets_of (user_id : Z) (network : string) (l : list Wallet.t) : nat :=
  List.length (filter (WalletRepository.is_for user_id network) l).

(** When [_fix] has nothing to round: the coefficient has at most [prec]
    digits and the exponent lies inside the context's range. *)
Definition representable (c : Decimal.Context) (d : Decimal.t) : Prop :=
  Decimal.len (Decimal.int d) <= Decimal.prec c /\
  Decimal.Etiny c <= Decimal.exp d /\
  Decimal.len (Decimal.int d) + Decimal.exp d - Decimal.prec c <= Decimal.Etop c.


(** The worlds [check_invoice_status] passes through on a pending invoice:
    once the invoice is loaded and the clock read; once the blockchain
    reader has answered, leaving the outside in state [e]; once the
    transaction store has been asked for the transaction found. *)
Definition after_clock {E} (invoice_id : Z) (w : World E) : World E :=
  called time_time (called (invoice_repository_get_invoice_by_id invoice_id) w).

Definition after_search {E} (invoice_id : Z) (w : World E) (v : Invoice.t)
  (wallet : Wallet.t) (e : E) : World E :=
  set_outside e
    (called (blockchain_reader_search_transactions_for_wallet wallet v)
       (called (wallet_repository_get_wallet_for_user
                  (Invoice.user_id v) (Invoice.network v))
          (after_clock invoice_id w))).

Definition after_lookup {E} (invoice_id : Z) (w : World E) (v : Invoice.t)
  (wallet : Wallet.t) (e : E) (tx : Transaction.t) : World E :=
  called (transaction_repository_get_transaction_by_hash_and_network
            (Transaction.hash tx) (Transaction.network tx))
    (after_search invoice_id w v wallet e).

(** What one call keeps true of an invoice whose expiration timestamp is 0
    and which is not EXPIRED: the stored invoice stays so, and the invoice
    returned, if any, is not EXPIRED either. *)
Definition unexpirable E (invoice_id : Z) (w : World E) : Prop :=
  exists v,
    find (InvoiceRepository.has_id invoice_id) (invoices w) = Some v
    /\ Invoice.expires_at v = Some 0
    /\ Invoice.status v <> EXPIRED.

Module Scenario.

(** The outside state is the unix time; a blockchain query takes ten
    seconds and yields [found]; the rate oracle answers [rate]. *)
Definition collaborators (found : option Transaction.t)
  (rate : option ExchangeRate.t) : Collaborators Z :=
  {| now := fun t => t;
     getcontext := fun _ => Decimal.DefaultContext;
     search_transactions_for_wallet := fun _ _ t => (t + 10, Ok found);
     generate_wallet :=
       fun t => (t, Ok (WalletCredentials.mk "0xA1" [Byte.x01; Byte.x02]));
     get_network_name := fun t => (t, Ok "ETH");
     encrypt_bytes := fun b t => (t, Ok (rev b));
     get_exchange_rate := fun _ _ t => (t, Ok rate) |}.

Definition wallet : Wallet.t := Wallet.mk 1 7 "bitcoin" "0xA1" [Byte.x02; Byte.x01].

Definition invoice (expires_at : option Z) (status : InvoiceStatus) : Invoice.t :=
  Invoice.mk 1 7 50 (Some 50) expires_at status None None
    (Decimal.mk false 10 (-1)) "BTC" None "bitcoin".

Definition payment (invoice_id : Z) : Transaction.t :=
  Transaction.mk 0 invoice_id "0xabc" "bitcoin".

Definition world (clock : Z) (v : Invoice.t) (txs : list Transaction.t) : World Z :=
  mkWorld [wallet] [v] txs clock [].

Definition usd_rate (reverted_rate : Decimal.t) : ExchangeRate.t :=
  ExchangeRate.mk 1 (Decimal.mk false 2000 0) reverted_rate "USD" "ETH" 40.

End Scenario.

(** ** Sending funds ([transfer_from_wallet])

    [transfer_from_wallet] decrypts the wallet's key, decodes it as UTF-8
    and hands it to the network client. *)

(** Python's [bytes.decode('utf-8')] with the default, strict error
    handling: the text as its list of code points, or [None] for
    [UnicodeDecodeError] (a stray or missing continuation byte, an overlong
    form, a surrogate, a value above U+10FFFF). *)
Module UTF8.

Definition str : Type := list Z.

Definition byte_val (b : Byte.byte) : Z := Z.of_N (Byte.to_N b).

Definition within (lo hi x : Z) : bool := (lo <=? x) && (x <=? hi).

(** A continuation byte, 0x80 to 0xBF. *)
Definition continuation (x : Z) : bool := within 128 191 x.

(** The second byte allowed after the lead byte of a three-byte form: 0xE0
    excludes overlong forms, 0xED excludes the surrogates. *)
Definition second_of_three (x0 x1 : Z) : bool :=
  if x0 =? 224 then within 160 191 x1
  else if x0 =? 237 then within 128 159 x1
  else continuation x1.

(** The second byte allowed after the lead byte of a four-byte form: 0xF0
    excludes overlong forms, 0xF4 stops at U+10FFFF. *)
Definition second_of_four (x0 x1 : Z) : bool :=
  if x0 =? 240 then within 144 191 x1
  else if x0 =? 244 then within 128 143 x1
  else continuation x1.

Fixpoint decode (l : bytes) : option str :=
  match l with
  | [] => Some []
  | b0 :: l1 =>
      let x0 := byte_val b0 in
      if x0 <? 128 then option_map (cons x0) (decode l1)
      else
        match l1 with
        | [] => None
        | b1 :: l2 =>
            let x1 := byte_val b1 in
            if within 194 223 x0 then
              if continuation x1
              then option_map (cons ((x0 - 192) * 64 + (x1 - 128))) (decode l2)
              else None
            else
              match l2 with
              | [] => None
              | b2 :: l3 =>
                  let x2 := byte_val b2 in
                  if within 224 239 x0 then
                    if second_of_three x0 x1 && continuation x2
                    then option_map
                           (cons ((x0 - 224) * 4096 + (x1 - 128) * 64 + (x2 - 128)))
                           (decode l3)
                    else None
                  else
                    match l3 with
                    | [] => None
                    | b3 :: l4 =>
                        let x3 := byte_val b3 in
                        if within 240 244 x0 && second_of_four x0 x1
                           && continuation x2 && continuation x3
                        then option_map
                               (cons ((x0 - 240) * 262144 + (x1 - 128) * 4096
                                      + (x2 - 128) * 64 + (x3 - 128)))
                               (decode l4)
                        else None
                    end
              end
        end
  end.

End UTF8.

(** The two collaborator methods only [transfer_from_wallet] uses; [K] is
    the type of the [**kwargs] it passes through. *)
Record TransferCollaborators (E K : Type) : Type :=
  { decrypt_bytes : bytes -> E -> E * Result bytes;
    transfer_amount :
      UTF8.str -> string -> Decimal.t -> K -> E -> E * Result string }.

(** The calls of those two methods, with their arguments. *)
Inductive TransferCall (K : Type) : Type :=
| security_provider_decrypt_bytes (data : bytes)
| network_client_transfer_amount
    (private_key : UTF8.str) (to_address : string) (amount : Decimal.t) (kwargs : K).

Arguments security_provider_decrypt_bytes {K} data.

(** How a transfer ends: with the network client's transaction hash, with an
    exception of the service or of a collaborator, or with the
    [UnicodeDecodeError] of [decode('utf-8')]. *)
Inductive TransferOutcome : Type :=
| Transferred (transaction_hash : string)
| TransferRaised (e : Exn)
| UnicodeDecodeError.

(** [CryptoPaymentsService.transfer_from_wallet]: the world it leaves, the
    calls of the decryption and transfer methods it made, in order (they
    all follow the calls [get_wallet_for_user] logs in the world), and how
    it ended. *)
Definition transfer_from_wallet {E K} (self : Collaborators E)
  (self' : TransferCollaborators E K) (user_id : Z) (network : string)
  (to_address : string) (amount : Decimal.t) (kwargs : K) (w : World E)
  : World E * list (TransferCall K) * TransferOutcome :=
  (* Get user's wallet *)
  match CryptoPaymentsService.get_wallet_for_user self user_id network w with
  | (w1, Raise ex) => (w1, [], TransferRaised ex)
  | (w1, Ok wallet) =>
      (* Decrypt private key *)
      let decrypting :=
        security_provider_decrypt_bytes (Wallet.private_key_encrypted wallet) in
      match decrypt_bytes self' (Wallet.private_key_encrypted wallet) (outside w1) with
      | (e2, Raise ex) => (set_outside e2 w1, [decrypting], TransferRaised ex)
      | (e2, Ok private_key_bytes) =>
          match UTF8.decode private_key_bytes with
          | None => (set_outside e2 w1, [decrypting], UnicodeDecodeError)
          | Some private_key =>
              (* Perform transfer *)
              let '(e3, r) :=
                transfer_amount self' private_key to_address amount kwargs e2 in
              (set_outside e3 w1,
               [decrypting;
                network_client_transfer_amount private_key to_address amount kwargs],
               match r with
               | Ok transaction_hash => Transferred transaction_hash
               | Raise ex => TransferRaised ex
               end)
          end
      end
  end.


(** The status an invoice may be stored with after a check that found it
    with status [s]: the same, or PAID or EXPIRED if it was PENDING. *)
Definition may_follow (s s' : InvoiceStatus) : Prop :=
  s' = s \/ (s = PENDING /\ (s' = PAID \/ s' = EXPIRED)).

Module TransferScenario.

(** Decryption undoes [Scenario]'s encryption (a reversal) and fails on the
    empty blob; a transfer takes two seconds and answers with a hash. *)
Definition collaborators : TransferCollaborators Z unit :=
  {| decrypt_bytes :=
       fun b t => (t, match b with
                      | [] => Raise (CollaboratorError "InvalidToken")
                      | _ => Ok (rev b)
                      end);
     transfer_amount := fun _ _ _ _ t => (t + 2, Ok "0xfeed") |}.

End TransferScenario.

(** No two stored transactions at one (hash, network). *)
Definition transactions_unique (l : list Transaction.t) : Prop :=
  forall hash network, (stored_at hash network l <= 1)%nat.

Module Outage.

(** Collaborators that can be down: the blockchain reader, the key
    generator and the cipher each either answer as in [Scenario] (the
    reader finds nothing) or raise. *)
Definition collaborators (reader_up generator_up cipher_up : bool)
  : Collaborators Z :=
  {| now := fun t => t;
     getcontext := fun _ => Decimal.DefaultContext;
     search_transactions_for_wallet :=
       fun _ _ t =>
         (t + 10,
          if reader_up then Ok None else Raise (CollaboratorError "node unreachable"));
     generate_wallet :=
       fun t =>
         (t, if generator_up
             then Ok (WalletCredentials.mk "0xA1" [Byte.x01; Byte.x02])
             else Raise (CollaboratorError "no entropy"));
     get_network_name := fun t => (t, Ok "ETH");
     encrypt_bytes :=
       fun b t =>
         (t, if cipher_up then Ok (rev b)
             else Raise (CollaboratorError "no key"));
     get_exchange_rate := fun _ _ t => (t, Ok None) |}.

End Outage.

(** Any run of checks, one per identifier of [ids], in that order: the world
    they leave. *)
Fixpoint checked {E} (self : Collaborators E) (ids : list Z) (w : World E)
  : World E :=
  match ids with
  | [] => w
  | invoice_id :: rest =>
      checked self rest
        (fst (CryptoPaymentsService.check_invoice_status self invoice_id w))
  end.

Module Flaky.

(** A network client that tells its name once and raises from then on (the
    outside state counts the seconds, and asking takes one); the rest
    answers as in [Scenario], with a rate at hand. *)
Definition collaborators : Collaborators Z :=
  {| now := fun t => t;
     getcontext := fun _ => Decimal.DefaultContext;
     search_transactions_for_wallet := fun _ _ t => (t + 10, Ok None);
     generate_wallet :=
       fun t => (t, Ok (WalletCredentials.mk "0xA1" [Byte.x01; Byte.x02]));
     get_network_name :=
       fun t =>
         (t + 1,
          if t <? 101 then Ok "ETH" else Raise (CollaboratorError "client closed"));
     encrypt_bytes := fun b t => (t, Ok (rev b));
     get_exchange_rate :=
       fun _ _ t => (t, Ok (Some (Scenario.usd_rate (Decimal.mk false 5 (-4))))) |}.

End Flaky.

(** * Properties *)

Import CryptoPaymentsService.

(** ** Projections of an updated world *)

Section Projections.
Variable E : Type.
Variables (w : World E) (c : Call) (e : E).

Lemma wallets_called : wallets (called c w) = wallets w.
Proof. reflexivity. Qed.
Lemma invoices_called : invoices (called c w) = invoices w.
Proof. reflexivity. Qed.
Lemma transactions_called : transactions (called c w) = transactions w.
Proof. reflexivity. Qed.
Lemma outside_called : outside (called c w) = outside w.
Proof. reflexivity. Qed.
Lemma wallets_set_outside : wallets (set_outside e w) = wallets w.
Proof. reflexivity. Qed.
Lemma invoices_set_outside : invoices (set_outside e w) = invoices w.
Proof. reflexivity. Qed.
Lemma transactions_set_outside : transactions (set_outside e w) = transactions w.
Proof. reflexivity. Qed.
Lemma invoices_set_transactions l :
  invoices (set_transactions l w) = invoices w.
Proof. reflexivity. Qed.
Lemma transactions_set_transactions l :
  transactions (set_transactions l w) = l.
Proof. reflexivity. Qed.
End Projections.

Create Rewrite HintDb world.

#[local] Hint Rewrite wallets_called invoices_called transactions_called
  outside_called wallets_set_outside invoices_set_outside
  transactions_set_outside invoices_set_transactions
  transactions_set_transactions : world.

(** ** The stores' reads and writes *)

Lemma has_id_with_status invoice_id s v :
  InvoiceRepository.has_id invoice_id (Invoice.with_status s v)
  = InvoiceRepository.has_id invoice_id v.
Proof. reflexivity. Qed.

Lemma find_after_update invoice_id s l :
  find (InvoiceRepository.has_id invoice_id)
       (map (fun x => if InvoiceRepository.has_id invoice_id x
                      then Invoice.with_status s x else x) l)
  = option_map (Invoice.with_status s)
               (find (InvoiceRepository.has_id invoice_id) l).
Proof.
  induction l as [|x l IH]; simpl; [reflexivity|].
  destruct (InvoiceRepository.has_id invoice_id x) eqn:Hx.
  - rewrite has_id_with_status, Hx. reflexivity.
  - rewrite Hx. exact IH.
Qed.

Lemma update_invoice_status_found E invoice_id s (w : World E) v :
  find (InvoiceRepository.has_id invoice_id) (invoices w) = Some v ->
  InvoiceRepository.update_invoice_status invoice_id s w
  = (set_invoices
       (map (fun x => if InvoiceRepository.has_id invoice_id x
                      then Invoice.with_status s x else x) (invoices w))
       (called (invoice_repository_update_invoice_status invoice_id s) w),
     Ok (Invoice.with_status s v)).
Proof.
  intros Hv. unfold InvoiceRepository.update_invoice_status.
  rewrite Hv. reflexivity.
Qed.

Lemma status_not_pending v :
  Invoice.status v <> PENDING ->
  negb (InvoiceStatus_eqb (Invoice.status v) PENDING) = true.
Proof. destruct (Invoice.status v); simpl; congruence. Qed.

Lemma status_pending v :
  Invoice.status v = PENDING ->
  negb (InvoiceStatus_eqb (Invoice.status v) PENDING) = false.
Proof. intros ->. reflexivity. Qed.

(** A call on an invoice that is not pending: one read, nothing else. *)
Lemma check_invoice_status_settled E (self : Collaborators E) invoice_id w v :
  find (InvoiceRepository.has_id invoice_id) (invoices w) = Some v ->
  Invoice.status v <> PENDING ->
  check_invoice_status self invoice_id w
  = (called (invoice_repository_get_invoice_by_id invoice_id) w, Ok v).
Proof.
  intros Hv Hs.
  unfold check_invoice_status, bind, InvoiceRepository.get_invoice_by_id.
  rewrite Hv, (status_not_pending _ Hs). reflexivity.
Qed.

Lemma polled_settled E (self : Collaborators E) invoice_id v n :
  forall w,
    find (InvoiceRepository.has_id invoice_id) (invoices w) = Some v ->
    Invoice.status v <> PENDING ->
    wallets (polled self invoice_id n w) = wallets w /\
    invoices (polled self invoice_id n w) = invoices w /\
    transactions (polled self invoice_id n w) = transactions w /\
    outside (polled self invoice_id n w) = outside w /\
    calls (polled self invoice_id n w)
    = calls w ++ repeat (invoice_repository_get_invoice_by_id invoice_id) n.
Proof.
  induction n as [|n IH]; intros w Hv Hs; simpl.
  - rewrite app_nil_r. auto.
  - rewrite (check_invoice_status_settled self _ _ Hv Hs). simpl.
    destruct (IH (called (invoice_repository_get_invoice_by_id invoice_id) w))
      as (Hw & Hi & Ht & Ho & Hc); [exact Hv | exact Hs |].
    rewrite Hw, Hi, Ht, Ho, Hc. simpl. rewrite <- app_assoc. auto.
Qed.

(** C2. Once an invoice is stored as PAID or EXPIRED, every later call of
    [check_invoice_status] (after any number [n] of earlier calls) returns
    the stored invoice as it is and writes nothing: the three stores are
    what they were, and the only collaborator method called is the read
    [get_invoice_by_id]. *)
Theorem check_invoice_status_terminal_is_final
  E (self : Collaborators E) (invoice_id : Z) (w : World E) (v : Invoice.t) (n : nat) :
  find (InvoiceRepository.has_id invoice_id) (invoices w) = Some v ->
  Invoice.status v = PAID \/ Invoice.status v = EXPIRED ->
  let w_n := polled self invoice_id n w in
  check_invoice_status self invoice_id w_n
  = (called (invoice_repository_get_invoice_by_id invoice_id) w_n, Ok v)
  /\ invoices w_n = invoices w
  /\ transactions w_n = transactions w
  /\ wallets w_n = wallets w.
Proof.
  intros Hv Hs w_n.
  assert (Hnp : Invoice.status v <> PENDING) by (destruct Hs as [-> | ->]; discriminate).
  destruct (polled_settled self invoice_id n w Hv Hnp) as (Hw & Hi & Ht & _ & _).
  fold w_n in Hw, Hi, Ht.
  repeat split; try assumption.
  apply check_invoice_status_settled; [rewrite Hi; exact Hv | exact Hnp].
Qed.

Lemma check_invoice_status_terminal_is_final_witness :
  let w := Scenario.world 100 (Scenario.invoice (Some 60) PAID) [Scenario.payment 1] in
  let self := Scenario.collaborators (Some (Scenario.payment 1)) None in
  check_invoice_status self 1 (polled self 1 3 w)
  = (called (invoice_repository_get_invoice_by_id 1) (polled self 1 3 w),
     Ok (Scenario.invoice (Some 60) PAID))
  /\ invoices (polled self 1 3 w) = invoices w
  /\ transactions (polled self 1 3 w) = transactions w
  /\ wallets (polled self 1 3 w) = wallets w.
Proof.
  intros w self.
  apply (@check_invoice_status_terminal_is_final Z self 1 w
           (Scenario.invoice (Some 60) PAID) 3).
  - reflexivity.
  - left. reflexivity.
Defined.

(** ** The branches of [check_invoice_status] on a pending invoice *)

Ltac enter_check :=
  unfold check_invoice_status, bind, ret, raise, collaborate, current_unix_time,
    InvoiceRepository.get_invoice_by_id, InvoiceRepository.update_invoice_status,
    WalletRepository.get_wallet_for_user,
    TransactionRepository.get_transaction_by_hash_and_network,
    TransactionRepository.save_transaction.

Ltac follow H := autorewrite with world; rewrite H.

Section Branches.
Variable E : Type.
Variable self : Collaborators E.
Variable invoice_id : Z.
Variable w : World E.
Variable v : Invoice.t.
Hypothesis Hfound :
  find (InvoiceRepository.has_id invoice_id) (invoices w) = Some v.
Hypothesis Hpending : Invoice.status v = PENDING.

Lemma branch_expired :
  has_expired v (now self (outside w)) = true ->
  check_invoice_status self invoice_id w
  = (set_invoices
       (map (fun x => if InvoiceRepository.has_id invoice_id x
                      then Invoice.with_status EXPIRED x else x) (invoices w))
       (called (invoice_repository_update_invoice_status invoice_id EXPIRED) (after_clock invoice_id w)),
     Ok (Invoice.with_status EXPIRED v)).
Proof.
  intros Hexp. enter_check.
  follow Hfound. follow (status_pending _ Hpending). follow Hexp.
  follow Hfound. reflexivity.
Qed.

Lemma branch_no_wallet :
  has_expired v (now self (outside w)) = false ->
  find (WalletRepository.is_for (Invoice.user_id v) (Invoice.network v)) (wallets w)
  = None ->
  check_invoice_status self invoice_id w
  = (called (wallet_repository_get_wallet_for_user
               (Invoice.user_id v) (Invoice.network v)) (after_clock invoice_id w),
     Raise (WalletNotFound (Invoice.user_id v) (Invoice.network v))).
Proof.
  intros Hexp Hw. enter_check.
  follow Hfound. follow (status_pending _ Hpending). follow Hexp. follow Hw.
  reflexivity.
Qed.

Variable wallet : Wallet.t.
Hypothesis Hwallet :
  find (WalletRepository.is_for (Invoice.user_id v) (Invoice.network v)) (wallets w)
  = Some wallet.
Hypothesis Hfresh_clock : has_expired v (now self (outside w)) = false.

Lemma branch_reader_raises e ex :
  search_transactions_for_wallet self wallet v (outside w) = (e, Raise ex) ->
  check_invoice_status self invoice_id w = (after_search invoice_id w v wallet e, Raise ex).
Proof.
  intros Hread. enter_check.
  follow Hfound. follow (status_pending _ Hpending). follow Hfresh_clock.
  follow Hwallet. follow Hread. reflexivity.
Qed.

Lemma branch_nothing_found e :
  search_transactions_for_wallet self wallet v (outside w) = (e, Ok None) ->
  check_invoice_status self invoice_id w = (after_search invoice_id w v wallet e, Ok v).
Proof.
  intros Hread. enter_check.
  follow Hfound. follow (status_pending _ Hpending). follow Hfresh_clock.
  follow Hwallet. follow Hread. reflexivity.
Qed.

Variable e : E.
Variable tx : Transaction.t.
Hypothesis Hread :
  search_transactions_for_wallet self wallet v (outside w) = (e, Ok (Some tx)).

Lemma branch_duplicate known :
  find (TransactionRepository.is_at (Transaction.hash tx) (Transaction.network tx))
       (transactions w) = Some known ->
  check_invoice_status self invoice_id w = ((after_lookup invoice_id w v wallet e tx), Ok v).
Proof.
  intros Hknown. enter_check.
  follow Hfound. follow (status_pending _ Hpending). follow Hfresh_clock.
  follow Hwallet. follow Hread. follow Hknown. reflexivity.
Qed.

Lemma branch_paid :
  find (TransactionRepository.is_at (Transaction.hash tx) (Transaction.network tx))
       (transactions w) = None ->
  check_invoice_status self invoice_id w
  = (set_invoices
       (map (fun x => if InvoiceRepository.has_id invoice_id x
                      then Invoice.with_status PAID x else x) (invoices w))
       (called (invoice_repository_update_invoice_status invoice_id PAID)
          (set_transactions
             (transactions w
              ++ [Transaction.with_id
                    (next_id (map Transaction.id (transactions w))) tx])
             (called (transaction_repository_save_transaction tx) (after_lookup invoice_id w v wallet e tx)))),
     Ok (Invoice.with_status PAID v)).
Proof.
  intros Hnew. enter_check.
  follow Hfound. follow (status_pending _ Hpending). follow Hfresh_clock.
  follow Hwallet. follow Hread. follow Hnew. follow Hfound.
  reflexivity.
Qed.

End Branches.

(** ** Expiration *)

Lemma has_expired_nonzero v t expires_at :
  Invoice.expires_at v = Some expires_at ->
  expires_at <> 0 -> expires_at < t ->
  has_expired v t = true.
Proof.
  intros He Hnz Hlt. unfold has_expired. rewrite He.
  apply andb_true_intro. split.
  - apply negb_true_iff, Z.eqb_neq, Hnz.
  - apply Z.ltb_lt, Hlt.
Qed.

Lemma has_expired_zero v t :
  Invoice.expires_at v = Some 0 -> has_expired v t = false.
Proof. intros He. unfold has_expired. rewrite He. reflexivity. Qed.

(** C6 (amended). A pending invoice whose expiration timestamp is not 0 and
    lies before the clock reading taken by the call is set to EXPIRED: the
    call reads the invoice and the clock, persists the status through the
    invoice store's [update_invoice_status] and returns the invoice with
    status EXPIRED; the blockchain is not consulted and no transaction is
    stored. *)
Theorem check_invoice_status_expires_overdue
  E (self : Collaborators E) (invoice_id : Z) (w : World E) (v : Invoice.t)
  (expires_at : Z) :
  find (InvoiceRepository.has_id invoice_id) (invoices w) = Some v ->
  Invoice.status v = PENDING ->
  Invoice.expires_at v = Some expires_at ->
  expires_at <> 0 ->
  expires_at < now self (outside w) ->
  exists w',
    check_invoice_status self invoice_id w
    = (w', Ok (Invoice.with_status EXPIRED v))
    /\ find (InvoiceRepository.has_id invoice_id) (invoices w')
       = Some (Invoice.with_status EXPIRED v)
    /\ transactions w' = transactions w
    /\ calls w'
       = calls w ++ [invoice_repository_get_invoice_by_id invoice_id;
                     time_time;
                     invoice_repository_update_invoice_status invoice_id EXPIRED].
Proof.
  intros Hv Hs He Hnz Hlt.
  rewrite (branch_expired self _ _ Hv Hs (has_expired_nonzero _ He Hnz Hlt)).
  eexists. split; [reflexivity|]. cbn [invoices transactions calls set_invoices].
  split; [|split].
  - rewrite find_after_update. autorewrite with world. rewrite Hv. reflexivity.
  - reflexivity.
  - unfold after_clock, called. cbn [calls]. rewrite <- !app_assoc. reflexivity.
Qed.

Lemma check_invoice_status_expires_overdue_witness :
  exists w',
    check_invoice_status (Scenario.collaborators (Some (Scenario.payment 1)) None) 1
      (Scenario.world 200 (Scenario.invoice (Some 100) PENDING) [])
    = (w', Ok (Scenario.invoice (Some 100) EXPIRED))
    /\ find (InvoiceRepository.has_id 1) (invoices w')
       = Some (Scenario.invoice (Some 100) EXPIRED)
    /\ transactions w' = []
    /\ calls w'
       = [] ++ [invoice_repository_get_invoice_by_id 1;
                time_time;
                invoice_repository_update_invoice_status 1 EXPIRED].
Proof.
  apply (@check_invoice_status_expires_overdue Z
           (Scenario.collaborators (Some (Scenario.payment 1)) None) 1
           (Scenario.world 200 (Scenario.invoice (Some 100) PENDING) [])
           (Scenario.invoice (Some 100) PENDING) 100).
  - reflexivity.
  - reflexivity.
  - reflexivity.
  - discriminate.
  - simpl. lia.
Defined.

(** C6, as stated, fails at the timestamp 0: the invoice below is pending,
    its expiration timestamp is set (to 0) and has passed (the clock reads
    5), the blockchain holds no matching transaction, and the call returns
    it still PENDING and leaves the invoice store as it was. *)
Lemma check_invoice_status_zero_timestamp_not_expired :
  let v := Scenario.invoice (Some 0) PENDING in
  let w := Scenario.world 5 v [] in
  let self := Scenario.collaborators None None in
  find (InvoiceRepository.has_id 1) (invoices w) = Some v
  /\ Invoice.status v = PENDING
  /\ Invoice.expires_at v = Some 0
  /\ 0 < now self (outside w)
  /\ snd (check_invoice_status self 1 w) = Ok v
  /\ invoices (fst (check_invoice_status self 1 w)) = [v]
  /\ Invoice.status v <> EXPIRED.
Proof.
  cbv zeta. repeat split; try reflexivity. discriminate.
Qed.

Lemma unexpirable_step E (self : Collaborators E) invoice_id (w : World E) :
  unexpirable invoice_id w ->
  unexpirable invoice_id (fst (check_invoice_status self invoice_id w))
  /\ forall r, snd (check_invoice_status self invoice_id w) = Ok r ->
               Invoice.status r <> EXPIRED.
Proof.
  intros (v & Hv & He & Hs).
  assert (Hkeep : forall w' : World E,
             invoices w' = invoices w -> unexpirable invoice_id w').
  { intros w' Hw'. exists v. rewrite Hw'. auto. }
  destruct (Invoice.status v) eqn:Hst; [| |congruence].
  - (* PENDING *)
    pose proof (has_expired_zero v (now self (outside w)) He) as Hne.
    destruct (find (WalletRepository.is_for (Invoice.user_id v) (Invoice.network v))
                (wallets w)) as [wallet|] eqn:Hw.
    + destruct (search_transactions_for_wallet self wallet v (outside w))
        as [e [[tx|]|ex]] eqn:Hread.
      * destruct (find (TransactionRepository.is_at (Transaction.hash tx)
                          (Transaction.network tx)) (transactions w))
          as [known|] eqn:Hknown.
        -- rewrite (branch_duplicate self _ _ Hv Hst Hw Hne Hread Hknown). simpl.
           split; [apply Hkeep; reflexivity|]. intros r [= <-]. congruence.
        -- rewrite (branch_paid self _ _ Hv Hst Hw Hne Hread Hknown). simpl.
           split; [|intros r [= <-]; discriminate].
           exists (Invoice.with_status PAID v). cbn [invoices set_invoices].
           rewrite find_after_update. autorewrite with world. rewrite Hv.
           repeat split; [exact He | discriminate].
      * rewrite (branch_nothing_found self _ _ Hv Hst Hw Hne Hread). simpl.
        split; [apply Hkeep; reflexivity|]. intros r [= <-]. congruence.
      * rewrite (branch_reader_raises self _ _ Hv Hst Hw Hne Hread). simpl.
        split; [apply Hkeep; reflexivity|]. discriminate.
    + rewrite (branch_no_wallet self _ _ Hv Hst Hne Hw). simpl.
      split; [apply Hkeep; reflexivity|]. discriminate.
  - (* PAID *)
    rewrite (@check_invoice_status_settled E self invoice_id w v Hv);
      [|congruence]. simpl.
    split; [apply Hkeep; reflexivity|]. intros r [= <-]. congruence.
Qed.

Lemma unexpirable_polled E (self : Collaborators E) invoice_id n :
  forall w : World E,
    unexpirable invoice_id w -> unexpirable invoice_id (polled self invoice_id n w).
Proof.
  induction n as [|n IH]; intros w Hw; simpl; [exact Hw|].
  apply IH, unexpirable_step, Hw.
Qed.

(** C10. An invoice whose expiration timestamp is exactly 0 is treated as
    having none: whatever the clock reads and whatever the collaborators
    answer, after any number [n] of checks the stored invoice is still not
    EXPIRED, and the next check does not return it EXPIRED either. *)
Theorem check_invoice_status_zero_timestamp_never_expires
  E (self : Collaborators E) (invoice_id : Z) (w : World E) (v : Invoice.t)
  (n : nat) :
  find (InvoiceRepository.has_id invoice_id) (invoices w) = Some v ->
  Invoice.expires_at v = Some 0 ->
  Invoice.status v <> EXPIRED ->
  let w_n := polled self invoice_id n w in
  (exists v_n,
      find (InvoiceRepository.has_id invoice_id) (invoices w_n) = Some v_n
      /\ Invoice.status v_n <> EXPIRED)
  /\ (forall r, snd (check_invoice_status self invoice_id w_n) = Ok r ->
                Invoice.status r <> EXPIRED).
Proof.
  intros Hv He Hs w_n.
  assert (Hn : unexpirable invoice_id w_n).
  { apply unexpirable_polled. exists v. auto. }
  split.
  - destruct Hn as (v_n & Hf & _ & Hs_n). exists v_n. auto.
  - apply unexpirable_step, Hn.
Qed.

Lemma check_invoice_status_zero_timestamp_never_expires_witness :
  let self := Scenario.collaborators None None in
  let w := Scenario.world 1000 (Scenario.invoice (Some 0) PENDING) [] in
  (exists v_n,
      find (InvoiceRepository.has_id 1) (invoices (polled self 1 2 w)) = Some v_n
      /\ Invoice.status v_n <> EXPIRED)
  /\ (forall r, snd (check_invoice_status self 1 (polled self 1 2 w)) = Ok r ->
                Invoice.status r <> EXPIRED).
Proof.
  intros self w.
  apply (@check_invoice_status_zero_timestamp_never_expires Z self 1 w
           (Scenario.invoice (Some 0) PENDING) 2).
  - reflexivity.
  - reflexivity.
  - discriminate.
Defined.

(** ** Payment *)

Lemma calls_after_lookup E invoice_id (w : World E) v wallet e tx :
  calls (after_lookup invoice_id w v wallet e tx)
  = calls w
    ++ [invoice_repository_get_invoice_by_id invoice_id;
        time_time;
        wallet_repository_get_wallet_for_user (Invoice.user_id v) (Invoice.network v);
        blockchain_reader_search_transactions_for_wallet wallet v;
        transaction_repository_get_transaction_by_hash_and_network
          (Transaction.hash tx) (Transaction.network tx)].
Proof.
  unfold after_lookup, after_search, after_clock, set_outside, called.
  cbn [calls]. rewrite <- !app_assoc. reflexivity.
Qed.

(** C1, as stated, fails: the invoice below is pending, its expiration
    timestamp (100) has passed (the clock reads 200), the blockchain reader
    would yield a matching transaction that is not recorded, and the call
    sets the invoice to EXPIRED and records no transaction. *)
Lemma check_invoice_status_overdue_payment_expires :
  let v := Scenario.invoice (Some 100) PENDING in
  let w := Scenario.world 200 v [] in
  let self := Scenario.collaborators (Some (Scenario.payment 1)) None in
  find (InvoiceRepository.has_id 1) (invoices w) = Some v
  /\ Invoice.status v = PENDING
  /\ Invoice.expires_at v = Some 100
  /\ 100 < now self (outside w)
  /\ search_transactions_for_wallet self Scenario.wallet v (outside w)
     = (210, Ok (Some (Scenario.payment 1)))
  /\ find (TransactionRepository.is_at "0xabc" "bitcoin") (transactions w) = None
  /\ snd (check_invoice_status self 1 w) = Ok (Scenario.invoice (Some 100) EXPIRED)
  /\ invoices (fst (check_invoice_status self 1 w))
     = [Scenario.invoice (Some 100) EXPIRED]
  /\ transactions (fst (check_invoice_status self 1 w)) = [].
Proof. cbv zeta. repeat split; reflexivity. Qed.

(** C1 (amended). On a pending invoice for which the blockchain reader holds
    a matching transaction not yet recorded, the outcome is decided by the
    one clock reading the call takes before it queries the blockchain.  If
    the expiration timestamp is unset, 0 or not before that reading, the
    invoice is set to PAID, whatever the clock reads once the query has
    returned (the timestamp may have passed meanwhile).  If the nonzero
    timestamp was already before that reading, the invoice is set to
    EXPIRED, the blockchain is not consulted and no transaction is
    recorded. *)
Theorem check_invoice_status_payment_priority
  E (self : Collaborators E) (invoice_id : Z) (w : World E) (v : Invoice.t)
  (wallet : Wallet.t) (e : E) (tx : Transaction.t) :
  find (InvoiceRepository.has_id invoice_id) (invoices w) = Some v ->
  Invoice.status v = PENDING ->
  find (WalletRepository.is_for (Invoice.user_id v) (Invoice.network v)) (wallets w)
  = Some wallet ->
  search_transactions_for_wallet self wallet v (outside w) = (e, Ok (Some tx)) ->
  find (TransactionRepository.is_at (Transaction.hash tx) (Transaction.network tx))
       (transactions w) = None ->
  let overdue := has_expired v (now self (outside w)) in
  let outcome := if overdue then EXPIRED else PAID in
  exists w',
    check_invoice_status self invoice_id w
    = (w', Ok (Invoice.with_status outcome v))
    /\ find (InvoiceRepository.has_id invoice_id) (invoices w')
       = Some (Invoice.with_status outcome v)
    /\ outside w' = (if overdue then outside w else e)
    /\ transactions w'
       = (if overdue then transactions w
          else transactions w
               ++ [Transaction.with_id
                     (next_id (map Transaction.id (transactions w))) tx]).
Proof.
  intros Hv Hs Hw Hread Hnew overdue outcome. subst outcome overdue.
  destruct (has_expired v (now self (outside w))) eqn:Hexp.
  - rewrite (branch_expired self _ _ Hv Hs Hexp).
    eexists. split; [reflexivity|]. cbn [invoices set_invoices].
    rewrite find_after_update. autorewrite with world. rewrite Hv.
    repeat split.
  - rewrite (branch_paid self _ _ Hv Hs Hw Hexp Hread Hnew).
    eexists. split; [reflexivity|]. cbn [invoices set_invoices].
    rewrite find_after_update. autorewrite with world. rewrite Hv.
    repeat split.
Qed.

(** The invoice expires at 100; the clock reads 95 when the call starts and
    105 when the blockchain reader returns the payment: PAID. *)
Lemma check_invoice_status_payment_priority_witness :
  let v := Scenario.invoice (Some 100) PENDING in
  let w := Scenario.world 95 v [] in
  let self := Scenario.collaborators (Some (Scenario.payment 1)) None in
  exists w',
    check_invoice_status self 1 w = (w', Ok (Scenario.invoice (Some 100) PAID))
    /\ find (InvoiceRepository.has_id 1) (invoices w')
       = Some (Scenario.invoice (Some 100) PAID)
    /\ outside w' = 105
    /\ transactions w' = [Transaction.mk 1 1 "0xabc" "bitcoin"].
Proof.
  intros v w self.
  apply (@check_invoice_status_payment_priority Z self 1 w v Scenario.wallet 105
           (Scenario.payment 1)); reflexivity.
Defined.

(** C8, as stated, fails where the blockchain reader hands back a
    transaction that does not carry the invoice's identifier: the service
    stores what the reader returned.  Invoice 1 is reconciled, the reader
    yields a fresh transaction marked for invoice 999, and the record stored
    is the one for 999. *)
Lemma check_invoice_status_stores_reader_invoice_id :
  let v := Scenario.invoice None PENDING in
  let w := Scenario.world 100 v [] in
  let self := Scenario.collaborators (Some (Scenario.payment 999)) None in
  find (InvoiceRepository.has_id 1) (invoices w) = Some v
  /\ Invoice.status v = PENDING
  /\ search_transactions_for_wallet self Scenario.wallet v (outside w)
     = (110, Ok (Some (Scenario.payment 999)))
  /\ find (TransactionRepository.is_at "0xabc" "bitcoin") (transactions w) = None
  /\ snd (check_invoice_status self 1 w) = Ok (Scenario.invoice None PAID)
  /\ transactions (fst (check_invoice_status self 1 w))
     = [Transaction.mk 1 999 "0xabc" "bitcoin"]
  /\ Transaction.invoice_id (Transaction.mk 1 999 "0xabc" "bitcoin") <> Invoice.id v.
Proof. cbv zeta. repeat split; try reflexivity. discriminate. Qed.

(** C8 (amended). On a fresh match (the invoice is pending, the guard before
    the query does not fire, the reader yields a transaction whose
    (hash, network) is not recorded) the call saves the transaction the
    reader returned: the record stored has that transaction's hash, network
    and invoice identifier, the last being the invoice's own identifier
    exactly when the reader set it so.  It then persists the status PAID
    through [update_invoice_status] and returns the invoice marked PAID. *)
Theorem check_invoice_status_fresh_match
  E (self : Collaborators E) (invoice_id : Z) (w : World E) (v : Invoice.t)
  (wallet : Wallet.t) (e : E) (tx : Transaction.t) :
  find (InvoiceRepository.has_id invoice_id) (invoices w) = Some v ->
  Invoice.status v = PENDING ->
  has_expired v (now self (outside w)) = false ->
  find (WalletRepository.is_for (Invoice.user_id v) (Invoice.network v)) (wallets w)
  = Some wallet ->
  search_transactions_for_wallet self wallet v (outside w) = (e, Ok (Some tx)) ->
  find (TransactionRepository.is_at (Transaction.hash tx) (Transaction.network tx))
       (transactions w) = None ->
  exists w' saved,
    check_invoice_status self invoice_id w = (w', Ok (Invoice.with_status PAID v))
    /\ transactions w' = transactions w ++ [saved]
    /\ Transaction.hash saved = Transaction.hash tx
    /\ Transaction.network saved = Transaction.network tx
    /\ Transaction.invoice_id saved = Transaction.invoice_id tx
    /\ find (InvoiceRepository.has_id invoice_id) (invoices w')
       = Some (Invoice.with_status PAID v)
    /\ calls w'
       = calls (after_lookup invoice_id w v wallet e tx)
         ++ [transaction_repository_save_transaction tx;
             invoice_repository_update_invoice_status invoice_id PAID].
Proof.
  intros Hv Hs Hexp Hw Hread Hnew.
  rewrite (branch_paid self _ _ Hv Hs Hw Hexp Hread Hnew).
  eexists. eexists. split; [reflexivity|].
  cbn [invoices transactions calls set_invoices called set_transactions].
  repeat split.
  - rewrite find_after_update. autorewrite with world. rewrite Hv. reflexivity.
  - rewrite <- app_assoc. reflexivity.
Qed.

Lemma check_invoice_status_fresh_match_witness :
  let v := Scenario.invoice None PENDING in
  let w := Scenario.world 100 v [] in
  let self := Scenario.collaborators (Some (Scenario.payment 1)) None in
  exists w' saved,
    check_invoice_status self 1 w = (w', Ok (Scenario.invoice None PAID))
    /\ transactions w' = [] ++ [saved]
    /\ Transaction.hash saved = "0xabc"
    /\ Transaction.network saved = "bitcoin"
    /\ Transaction.invoice_id saved = 1
    /\ find (InvoiceRepository.has_id 1) (invoices w')
       = Some (Scenario.invoice None PAID)
    /\ calls w'
       = calls (after_lookup 1 w v Scenario.wallet 110 (Scenario.payment 1))
         ++ [transaction_repository_save_transaction (Scenario.payment 1);
             invoice_repository_update_invoice_status 1 PAID].
Proof.
  intros v w self.
  apply (@check_invoice_status_fresh_match Z self 1 w v Scenario.wallet 110
           (Scenario.payment 1)); reflexivity.
Defined.

(** C7, at the failing input: the invoice expires at 100, the clock reads 95
    when the call takes its one reading and 105 when the blockchain reader
    comes back empty-handed.  The check after the query compares the
    reading of 95 again, so the invoice is returned PENDING and nothing is
    written, although its expiration has passed. *)
Lemma check_invoice_status_expiring_mid_check_stays_pending :
  let v := Scenario.invoice (Some 100) PENDING in
  let w := Scenario.world 95 v [] in
  let self := Scenario.collaborators None None in
  now self (outside w) = 95
  /\ now self (outside (fst (check_invoice_status self 1 w))) = 105
  /\ has_expired v 105 = true
  /\ snd (check_invoice_status self 1 w) = Ok v
  /\ Invoice.status v = PENDING
  /\ invoices (fst (check_invoice_status self 1 w)) = [v].
Proof. cbv zeta. repeat split; reflexivity. Qed.

(** ** At most one application of a transaction *)

Lemma filter_none A (p : A -> bool) l :
  find p l = None -> filter p l = [].
Proof.
  induction l as [|x l IH]; simpl; [reflexivity|].
  destruct (p x); [discriminate | exact IH].
Qed.

Lemma is_at_saved i tx :
  TransactionRepository.is_at (Transaction.hash tx) (Transaction.network tx)
    (Transaction.with_id i tx) = true.
Proof.
  unfold TransactionRepository.is_at. simpl.
  rewrite !String.eqb_refl. reflexivity.
Qed.

Lemma stored_at_fresh_save tx l :
  find (TransactionRepository.is_at (Transaction.hash tx) (Transaction.network tx)) l
  = None ->
  stored_at (Transaction.hash tx) (Transaction.network tx)
    (l ++ [Transaction.with_id (next_id (map Transaction.id l)) tx]) = 1%nat.
Proof.
  intros Hnew. unfold stored_at.
  rewrite filter_app, (filter_none _ _ Hnew). simpl.
  rewrite is_at_saved. reflexivity.
Qed.

Lemma paid_transitions_app invoice_id l1 l2 :
  paid_transitions invoice_id (l1 ++ l2)
  = (paid_transitions invoice_id l1 + paid_transitions invoice_id l2)%nat.
Proof. unfold paid_transitions. rewrite filter_app, length_app. reflexivity. Qed.

Lemma paid_transitions_reads invoice_id n :
  paid_transitions invoice_id
    (repeat (invoice_repository_get_invoice_by_id invoice_id) n) = 0%nat.
Proof. induction n as [|n IH]; [reflexivity | exact IH]. Qed.

(** C3. Let the blockchain reader yield, for a pending invoice, the
    transaction [tx].  If the transaction store already holds a record at
    [tx]'s (hash, network), the call does not set the invoice to PAID (it
    returns it, and leaves it stored, PENDING or EXPIRED) and the
    transaction store is unchanged, so no second record is stored.  If it
    holds none and the invoice is not overdue, then after any number
    [S n] of successive checks the store holds exactly one record at that
    (hash, network), the invoice has been set to PAID exactly once, and it
    is stored PAID. *)
Theorem check_invoice_status_applies_transaction_once
  E (self : Collaborators E) (invoice_id : Z) (w : World E) (v : Invoice.t)
  (wallet : Wallet.t) (e : E) (tx : Transaction.t) :
  find (InvoiceRepository.has_id invoice_id) (invoices w) = Some v ->
  Invoice.status v = PENDING ->
  find (WalletRepository.is_for (Invoice.user_id v) (Invoice.network v)) (wallets w)
  = Some wallet ->
  search_transactions_for_wallet self wallet v (outside w) = (e, Ok (Some tx)) ->
  (forall known,
      find (TransactionRepository.is_at (Transaction.hash tx) (Transaction.network tx))
           (transactions w) = Some known ->
      exists w' r,
        check_invoice_status self invoice_id w = (w', Ok r)
        /\ Invoice.status r <> PAID
        /\ transactions w' = transactions w
        /\ find (InvoiceRepository.has_id invoice_id) (invoices w') = Some r)
  /\ (find (TransactionRepository.is_at (Transaction.hash tx) (Transaction.network tx))
           (transactions w) = None ->
      has_expired v (now self (outside w)) = false ->
      forall n,
        let w_n := polled self invoice_id (S n) w in
        stored_at (Transaction.hash tx) (Transaction.network tx) (transactions w_n)
        = 1%nat
        /\ paid_transitions invoice_id (calls w_n)
           = S (paid_transitions invoice_id (calls w))
        /\ find (InvoiceRepository.has_id invoice_id) (invoices w_n)
           = Some (Invoice.with_status PAID v)).
Proof.
  intros Hv Hs Hw Hread. split.
  - intros known Hknown.
    destruct (has_expired v (now self (outside w))) eqn:Hexp.
    + rewrite (branch_expired self _ _ Hv Hs Hexp).
      eexists. eexists. split; [reflexivity|].
      cbn [invoices set_invoices]. rewrite find_after_update.
      autorewrite with world. rewrite Hv.
      repeat split. discriminate.
    + rewrite (branch_duplicate self _ _ Hv Hs Hw Hexp Hread Hknown).
      eexists. eexists. split; [reflexivity|].
      repeat split; [congruence | exact Hv].
  - intros Hnew Hexp n w_n. subst w_n. cbn [polled].
    rewrite (branch_paid self _ _ Hv Hs Hw Hexp Hread Hnew). cbn [fst].
    match goal with |- context [polled _ _ n ?w1] => set (w_1 := w1) end.
    assert (Hv1 : find (InvoiceRepository.has_id invoice_id) (invoices w_1)
                  = Some (Invoice.with_status PAID v)).
    { subst w_1. cbn [invoices set_invoices]. rewrite find_after_update.
      autorewrite with world. rewrite Hv. reflexivity. }
    destruct (@polled_settled E self invoice_id (Invoice.with_status PAID v) n w_1 Hv1)
      as (_ & Hi & Ht & _ & Hc); [discriminate|].
    rewrite Hi, Ht, Hc. split; [|split].
    + subst w_1. cbn [transactions set_invoices called set_transactions].
      apply stored_at_fresh_save, Hnew.
    + rewrite paid_transitions_app, paid_transitions_reads.
      subst w_1. cbn [calls set_invoices called set_transactions].
      rewrite calls_after_lookup, <- !app_assoc, !paid_transitions_app.
      unfold paid_transitions. cbn [filter is_paid_update List.length].
      rewrite Z.eqb_refl. cbn [List.length]. lia.
    + exact Hv1.
Qed.

(** Invoice 1 is reconciled against a transaction already recorded for
    another invoice, and stays PENDING; reconciled four times against a
    transaction not yet recorded, it is set to PAID once and one record is
    stored. *)
Lemma check_invoice_status_applies_transaction_once_witness :
  let v := Scenario.invoice None PENDING in
  let self := Scenario.collaborators (Some (Scenario.payment 1)) None in
  (exists w' r,
      check_invoice_status self 1
        (Scenario.world 100 v [Transaction.mk 1 2 "0xabc" "bitcoin"]) = (w', Ok r)
      /\ Invoice.status r <> PAID
      /\ transactions w' = [Transaction.mk 1 2 "0xabc" "bitcoin"]
      /\ find (InvoiceRepository.has_id 1) (invoices w') = Some r)
  /\ (stored_at "0xabc" "bitcoin"
        (transactions (polled self 1 4 (Scenario.world 100 v []))) = 1%nat
      /\ paid_transitions 1 (calls (polled self 1 4 (Scenario.world 100 v [])))
         = 1%nat
      /\ find (InvoiceRepository.has_id 1)
           (invoices (polled self 1 4 (Scenario.world 100 v [])))
         = Some (Scenario.invoice None PAID)).
Proof.
  intros v self. split.
  - apply (proj1 (@check_invoice_status_applies_transaction_once Z self 1
                    (Scenario.world 100 v [Transaction.mk 1 2 "0xabc" "bitcoin"])
                    v Scenario.wallet 110 (Scenario.payment 1)
                    eq_refl eq_refl eq_refl eq_refl)
             (Transaction.mk 1 2 "0xabc" "bitcoin") eq_refl).
  - apply (proj2 (@check_invoice_status_applies_transaction_once Z self 1
                    (Scenario.world 100 v []) v Scenario.wallet 110
                    (Scenario.payment 1) eq_refl eq_refl eq_refl eq_refl)
             eq_refl eq_refl 3%nat).
Defined.

(** ** Wallet provisioning *)

Lemma find_app_none A (p : A -> bool) l x :
  find p l = None -> find p (l ++ [x]) = if p x then Some x else None.
Proof.
  induction l as [|y l IH]; simpl; [reflexivity|].
  destruct (p y); [discriminate | exact IH].
Qed.

Lemma filter_some A (p : A -> bool) l x :
  find p l = Some x -> (1 <= List.length (filter p l))%nat.
Proof.
  induction l as [|y l IH]; simpl; [discriminate|].
  destruct (p y); simpl; [lia | exact IH].
Qed.

Lemma is_for_saved i user_id network address key :
  WalletRepository.is_for user_id network
    (Wallet.with_id i (Wallet.mk 0 user_id network address key)) = true.
Proof.
  unfold WalletRepository.is_for. simpl.
  rewrite Z.eqb_refl, String.eqb_refl. reflexivity.
Qed.

(** The fast path: one read of the wallet store, nothing else. *)
Lemma get_wallet_for_user_existing E (self : Collaborators E) user_id network
  (w : World E) wallet :
  find (WalletRepository.is_for user_id network) (wallets w) = Some wallet ->
  get_wallet_for_user self user_id network w
  = (called (wallet_repository_get_wallet_for_user user_id network) w, Ok wallet).
Proof.
  intros Hw.
  unfold get_wallet_for_user, bind, ret, WalletRepository.get_wallet_for_user.
  rewrite Hw. reflexivity.
Qed.

(** Whenever a call succeeds, by either path, the wallet it returns is the
    one the store now answers with, and the store holds one wallet more for
    (user, network) only if it held none. *)
Lemma get_wallet_for_user_stored E (self : Collaborators E) user_id network
  (w w1 : World E) wallet1 :
  get_wallet_for_user self user_id network w = (w1, Ok wallet1) ->
  find (WalletRepository.is_for user_id network) (wallets w1) = Some wallet1
  /\ ((wallets_of user_id network (wallets w) <= 1)%nat ->
      wallets_of user_id network (wallets w1) = 1%nat).
Proof.
  destruct (find (WalletRepository.is_for user_id network) (wallets w))
    as [wallet|] eqn:Hw.
  - rewrite (get_wallet_for_user_existing self _ _ _ Hw). intros [= <- <-].
    autorewrite with world. split; [exact Hw|].
    pose proof (filter_some _ _ Hw). unfold wallets_of. lia.
  - unfold get_wallet_for_user, bind, ret, collaborate,
      WalletRepository.get_wallet_for_user, WalletRepository.save_wallet.
    rewrite Hw. autorewrite with world.
    destruct (generate_wallet self (outside w)) as [e1 [credentials|ex]];
      cbn beta iota; [|discriminate].
    autorewrite with world. cbn [outside set_outside].
    destruct (encrypt_bytes self (WalletCredentials.private_key credentials) e1)
      as [e2 [key|ex]]; cbn beta iota; [|discriminate].
    cbn [wallets set_outside called Wallet.user_id Wallet.network].
    rewrite Hw. intros [= <- <-]. cbn [wallets set_wallets].
    split.
    + rewrite (find_app_none _ _ _ Hw), is_for_saved. reflexivity.
    + intros _. unfold wallets_of.
      rewrite filter_app, (filter_none _ _ Hw). simpl.
      rewrite is_for_saved. reflexivity.
Qed.

(** C4. Where the wallet store holds a wallet for (user, network),
    [get_wallet_for_user] returns that very record, and the world it leaves
    differs from the one it found only by the logged read of the wallet
    store: nothing is written, and neither the network client nor the
    security provider is called.  Hence a call that follows a successful
    call returns the identical wallet, again without effect, and a store
    that held at most one wallet for (user, network) holds exactly one. *)
Theorem get_wallet_for_user_idempotent
  E (self : Collaborators E) (user_id : Z) (network : string) (w : World E) :
  (forall wallet,
      find (WalletRepository.is_for user_id network) (wallets w) = Some wallet ->
      get_wallet_for_user self user_id network w
      = (called (wallet_repository_get_wallet_for_user user_id network) w,
         Ok wallet))
  /\ (forall w1 wallet1,
         get_wallet_for_user self user_id network w = (w1, Ok wallet1) ->
         get_wallet_twice self user_id network w
         = (called (wallet_repository_get_wallet_for_user user_id network) w1,
            (Ok wallet1, Ok wallet1))
         /\ ((wallets_of user_id network (wallets w) <= 1)%nat ->
             wallets_of user_id network
               (wallets (fst (get_wallet_twice self user_id network w))) = 1%nat)).
Proof.
  split.
  - intros wallet. apply get_wallet_for_user_existing.
  - intros w1 wallet1 Hfirst.
    destruct (get_wallet_for_user_stored self _ _ _ Hfirst) as [Hstored Hone].
    unfold get_wallet_twice. rewrite Hfirst.
    rewrite (get_wallet_for_user_existing self _ _ _ Hstored).
    split; [reflexivity|]. cbn [fst]. autorewrite with world. exact Hone.
Qed.

(** With the wallet stored, two calls return it twice and leave the one
    wallet; from an empty store, the first call provisions a wallet, the
    second returns the same, and one wallet is stored. *)
Lemma get_wallet_for_user_idempotent_witness :
  let self := Scenario.collaborators None None in
  let w := Scenario.world 100 (Scenario.invoice None PENDING) [] in
  let w0 : World Z := mkWorld [] [] [] 100 [] in
  get_wallet_for_user self 7 "bitcoin" w
  = (called (wallet_repository_get_wallet_for_user 7 "bitcoin") w, Ok Scenario.wallet)
  /\ (get_wallet_twice self 7 "bitcoin" w0
      = (called (wallet_repository_get_wallet_for_user 7 "bitcoin")
           (fst (get_wallet_for_user self 7 "bitcoin" w0)),
         (Ok Scenario.wallet, Ok Scenario.wallet))
      /\ wallets_of 7 "bitcoin" (wallets (fst (get_wallet_twice self 7 "bitcoin" w0)))
         = 1%nat).
Proof.
  intros self w w0. split.
  - apply (proj1 (@get_wallet_for_user_idempotent Z self 7 "bitcoin" w)
             Scenario.wallet eq_refl).
  - destruct (proj2 (@get_wallet_for_user_idempotent Z self 7 "bitcoin" w0)
                (fst (get_wallet_for_user self 7 "bitcoin" w0)) Scenario.wallet
                eq_refl) as [Htwice Hone].
    split; [exact Htwice | apply Hone; unfold wallets_of; simpl; lia].
Defined.

(** ** Fiat invoices *)

Lemma to_Q_exact_mul a b :
  (Decimal.to_Q (Decimal.exact_mul a b) == Decimal.to_Q a * Decimal.to_Q b)%Q.
Proof.
  unfold Decimal.to_Q, Decimal.exact_mul. cbn [Decimal.sign Decimal.int Decimal.exp].
  rewrite Qpower_plus by discriminate.
  assert (Hc : ((if xorb (Decimal.sign a) (Decimal.sign b) then -1 else 1)
                * (Decimal.int a * Decimal.int b) # 1
                == ((if Decimal.sign a then -1 else 1) * Decimal.int a # 1)
                   * ((if Decimal.sign b then -1 else 1) * Decimal.int b # 1))%Q).
  { unfold Qeq, Qmult. cbn [Qnum Qden Pos.mul].
    destruct (Decimal.sign a), (Decimal.sign b); cbn [xorb]; lia. }
  rewrite Hc. ring.
Qed.

Lemma to_Q_zero s e1 e2 :
  (Decimal.to_Q (Decimal.mk s 0 e1) == Decimal.to_Q (Decimal.mk s 0 e2))%Q.
Proof.
  unfold Decimal.to_Q. cbn [Decimal.sign Decimal.int Decimal.exp].
  rewrite Z.mul_0_r. rewrite !Qmult_0_l. reflexivity.
Qed.

(** A representable value passes [_fix] with its value unchanged. *)
Lemma _fix_representable c d :
  representable c d ->
  exists d', Decimal._fix c d = Some d'
             /\ (Decimal.to_Q d' == Decimal.to_Q d)%Q.
Proof.
  intros (Hlen & Hlow & Hhigh). unfold Decimal._fix.
  destruct (Decimal.int d =? 0) eqn:Hz.
  - eexists. split; [reflexivity|].
    apply Z.eqb_eq in Hz. destruct d as [s i x]. cbn [Decimal.int] in Hz.
    subst i. apply to_Q_zero.
  - replace (Decimal.Etop c <? Decimal.len (Decimal.int d) + Decimal.exp d - Decimal.prec c)
      with false by (symmetry; apply Z.ltb_ge; lia).
    replace (Decimal.exp d
             <? Z.max (Decimal.len (Decimal.int d) + Decimal.exp d - Decimal.prec c)
                      (Decimal.Etiny c))
      with false by (symmetry; apply Z.ltb_ge; lia).
    exists d. split; reflexivity.
Qed.

(** C5, as stated, fails where the product needs more digits than the
    decimal context keeps: 12 times 0.3333333333333333333333333333 is
    3.9999999999999999999999999996, twenty-nine digits, and the invoice is
    created with the crypto amount 4.000000000000000000000000000. *)
Lemma create_fiat_invoice_rounds_long_product :
  let fiat_amount := Decimal.mk false 12 0 in
  let reverted_rate := Decimal.mk false 3333333333333333333333333333 (-28) in
  let self := Scenario.collaborators None (Some (Scenario.usd_rate reverted_rate)) in
  let w := Scenario.world 100 (Scenario.invoice None PENDING) [] in
  let crypto_amount := Decimal.mk false 4000000000000000000000000000 (-27) in
  snd (create_fiat_invoice self 7 "bitcoin" fiat_amount "USD" None w)
  = Ok (Invoice.mk 2 7 100 (Some 100) None PENDING (Some fiat_amount) (Some "USD")
          crypto_amount "ETH" None "bitcoin")
  /\ ~ (Decimal.to_Q crypto_amount
        == Decimal.to_Q fiat_amount * Decimal.to_Q reverted_rate)%Q.
Proof.
  cbv zeta. split.
  - vm_compute. reflexivity.
  - unfold Qeq. vm_compute. discriminate.
Qed.

(** C5 (amended). The crypto amount of a fiat invoice is the [Decimal]
    product of the fiat amount and the rate's [reverted_rate] under the
    thread's decimal context (no binary floating point is involved): it
    equals the exact product whenever that product is representable in the
    context, that is, has at most [prec] digits (28 by default) and an
    exponent in range; a longer product is rounded to [prec] digits. *)
Theorem create_fiat_invoice_crypto_amount
  E (self : Collaborators E) (user_id : Z) (network : string)
  (fiat_amount : Decimal.t) (fiat_currency : string) (expires_at : option Z)
  (w w' : World E) (e1 e2 : E) (name : string) (rate : ExchangeRate.t)
  (invoice : Invoice.t) :
  get_network_name self (outside w) = (e1, Ok name) ->
  get_exchange_rate self fiat_currency name e1 = (e2, Ok (Some rate)) ->
  create_fiat_invoice self user_id network fiat_amount fiat_currency expires_at w
  = (w', Ok invoice) ->
  Decimal.mul (getcontext self e2) fiat_amount (ExchangeRate.reverted_rate rate)
  = Some (Invoice.crypto_amount invoice)
  /\ (representable (getcontext self e2)
        (Decimal.exact_mul fiat_amount (ExchangeRate.reverted_rate rate)) ->
      (Decimal.to_Q (Invoice.crypto_amount invoice)
       == Decimal.to_Q fiat_amount * Decimal.to_Q (ExchangeRate.reverted_rate rate))%Q).
Proof.
  intros Hname Hrate.
  unfold create_fiat_invoice, network_name, bind, raise, collaborate, decimal_mul,
    current_unix_time, InvoiceRepository.save_invoice.
  rewrite Hname. autorewrite with world. cbn [outside set_outside].
  rewrite Hrate. cbn [outside set_outside].
  destruct (Decimal.mul (getcontext self e2) fiat_amount
              (ExchangeRate.reverted_rate rate)) as [d|] eqn:Hmul; [|discriminate].
  match goal with
  | |- context [get_wallet_for_user self user_id network ?w0] =>
      destruct (get_wallet_for_user self user_id network w0) as [w2 [wallet|ex]]
  end; [|discriminate].
  autorewrite with world.
  destruct (get_network_name self (outside w2)) as [e3 [name2|ex]];
    [|discriminate].
  intros [= _ <-]. cbn [Invoice.crypto_amount Invoice.with_id].
  split; [reflexivity|].
  intros Hrep. destruct (_fix_representable Hrep) as (d' & Hfix & Hq).
  unfold Decimal.mul in Hmul. rewrite Hfix in Hmul. injection Hmul as <-.
  rewrite Hq. apply to_Q_exact_mul.
Qed.

(** [createFiatInvoice(userId, "erc20", 100, "USD")] at a rate whose
    [reverted_rate] is 0.0005: the crypto amount is 0.05. *)
Lemma create_fiat_invoice_crypto_amount_witness :
  let fiat_amount := Decimal.mk false 100 0 in
  let reverted_rate := Decimal.mk false 5 (-4) in
  let self := Scenario.collaborators None (Some (Scenario.usd_rate reverted_rate)) in
  let w : World Z := mkWorld [] [] [] 100 [] in
  exists invoice,
    snd (create_fiat_invoice self 7 "erc20" fiat_amount "USD" None w) = Ok invoice
    /\ (Decimal.to_Q (Invoice.crypto_amount invoice) == 5 # 100)%Q.
Proof.
  intros fiat_amount reverted_rate self w.
  eexists. split; [reflexivity|].
  assert (Hrep : representable Decimal.DefaultContext
                   (Decimal.exact_mul fiat_amount reverted_rate)).
  { unfold representable. vm_compute. repeat split; discriminate. }
  rewrite (proj2 (@create_fiat_invoice_crypto_amount Z self 7 "erc20" fiat_amount
                    "USD" None w _ 100 100 "ETH" (Scenario.usd_rate reverted_rate)
                    _ eq_refl eq_refl eq_refl) Hrep).
  reflexivity.
Defined.

(** C9. [create_fiat_invoice] asks for the exchange rate before anything
    else.  When the provider has no rate for the pair, the call raises, and
    all it has done by then is ask the network client for its name, ask the
    provider for the rate and ask for the name again to word the exception:
    the wallet, invoice and transaction stores are exactly as before, no
    wallet has been provisioned and no invoice saved. *)
Theorem create_fiat_invoice_without_rate_is_atomic
  E (self : Collaborators E) (user_id : Z) (network : string)
  (fiat_amount : Decimal.t) (fiat_currency : string) (expires_at : option Z)
  (w : World E) (e1 e2 : E) (name : string) :
  get_network_name self (outside w) = (e1, Ok name) ->
  get_exchange_rate self fiat_currency name e1 = (e2, Ok None) ->
  exists w' ex,
    create_fiat_invoice self user_id network fiat_amount fiat_currency expires_at w
    = (w', Raise ex)
    /\ wallets w' = wallets w
    /\ invoices w' = invoices w
    /\ transactions w' = transactions w
    /\ calls w'
       = calls w ++ [network_client_get_network_name;
                     exchange_rate_provider_get_exchange_rate fiat_currency name;
                     network_client_get_network_name]
    /\ (forall e3 name', get_network_name self e2 = (e3, Ok name') ->
                         ex = ExchangeRateNotAvailable fiat_currency name').
Proof.
  intros Hname Hrate.
  unfold create_fiat_invoice, network_name, bind, raise, collaborate.
  rewrite Hname. autorewrite with world. cbn [outside set_outside].
  rewrite Hrate. cbn [outside set_outside].
  destruct (get_network_name self e2) as [e3 [name'|ex]].
  - eexists. eexists. split; [reflexivity|].
    cbn [wallets invoices transactions calls set_outside called].
    rewrite <- !app_assoc. repeat split. intros ? ? [= _ <-]. reflexivity.
  - eexists. eexists. split; [reflexivity|].
    cbn [wallets invoices transactions calls set_outside called].
    rewrite <- !app_assoc. repeat split. discriminate.
Qed.

Lemma create_fiat_invoice_without_rate_is_atomic_witness :
  let self := Scenario.collaborators None None in
  let w := Scenario.world 100 (Scenario.invoice None PENDING) [] in
  exists w' ex,
    create_fiat_invoice self 8 "erc20" (Decimal.mk false 100 0) "USD" None w
    = (w', Raise ex)
    /\ wallets w' = wallets w
    /\ invoices w' = invoices w
    /\ transactions w' = transactions w
    /\ calls w'
       = calls w ++ [network_client_get_network_name;
                     exchange_rate_provider_get_exchange_rate "USD" "ETH";
                     network_client_get_network_name]
    /\ (forall e3 name', get_network_name self 100 = (e3, Ok name') ->
                         ex = ExchangeRateNotAvailable "USD" name').
Proof.
  intros self w.
  apply (@create_fiat_invoice_without_rate_is_atomic Z self 8 "erc20"
           (Decimal.mk false 100 0) "USD" None w 100 100 "ETH");
    reflexivity.
Defined.

(** * Further properties of the service *)

(** ** Every way a check can end *)

Lemma with_status_same v : Invoice.with_status (Invoice.status v) v = v.
Proof. destruct v; reflexivity. Qed.

Lemma find_other_after_update invoice_id other s l :
  other <> invoice_id ->
  find (InvoiceRepository.has_id other)
       (map (fun x => if InvoiceRepository.has_id invoice_id x
                      then Invoice.with_status s x else x) l)
  = find (InvoiceRepository.has_id other) l.
Proof.
  intros Hne. induction l as [|x l IH]; simpl; [reflexivity|].
  destruct (InvoiceRepository.has_id invoice_id x) eqn:Hx.
  - rewrite has_id_with_status.
    destruct (InvoiceRepository.has_id other x) eqn:Ho; [|exact IH].
    unfold InvoiceRepository.has_id in Hx, Ho.
    apply Z.eqb_eq in Hx, Ho. congruence.
  - destruct (InvoiceRepository.has_id other x); [reflexivity | exact IH].
Qed.

Lemma ids_after_update invoice_id s l :
  map Invoice.id
      (map (fun x => if InvoiceRepository.has_id invoice_id x
                     then Invoice.with_status s x else x) l)
  = map Invoice.id l.
Proof.
  rewrite map_map. apply map_ext. intros x.
  destruct (InvoiceRepository.has_id invoice_id x); reflexivity.
Qed.

(** A call leaves the stores as they were, or sets a pending, overdue
    invoice to EXPIRED, or records one transaction not recorded before and
    sets a pending invoice to PAID. *)
Lemma check_invoice_status_cases E (self : Collaborators E) invoice_id
  (w w' : World E) r :
  check_invoice_status self invoice_id w = (w', r) ->
  wallets w' = wallets w
  /\ ((invoices w' = invoices w /\ transactions w' = transactions w
       /\ forall x, r = Ok x ->
                    find (InvoiceRepository.has_id invoice_id) (invoices w) = Some x)
      \/ (exists v,
             find (InvoiceRepository.has_id invoice_id) (invoices w) = Some v
             /\ Invoice.status v = PENDING
             /\ invoices w'
                = map (fun x => if InvoiceRepository.has_id invoice_id x
                                then Invoice.with_status EXPIRED x else x)
                      (invoices w)
             /\ transactions w' = transactions w
             /\ r = Ok (Invoice.with_status EXPIRED v))
      \/ (exists v tx,
             find (InvoiceRepository.has_id invoice_id) (invoices w) = Some v
             /\ Invoice.status v = PENDING
             /\ find (TransactionRepository.is_at (Transaction.hash tx)
                        (Transaction.network tx)) (transactions w) = None
             /\ invoices w'
                = map (fun x => if InvoiceRepository.has_id invoice_id x
                                then Invoice.with_status PAID x else x)
                      (invoices w)
             /\ transactions w'
                = transactions w
                  ++ [Transaction.with_id
                        (next_id (map Transaction.id (transactions w))) tx]
             /\ r = Ok (Invoice.with_status PAID v))).
Proof.
  destruct (find (InvoiceRepository.has_id invoice_id) (invoices w)) as [v|] eqn:Hv.
  2:{ unfold check_invoice_status, bind, raise, InvoiceRepository.get_invoice_by_id.
      rewrite Hv. intros [= <- <-]. split; [reflexivity|]. left.
      repeat split. discriminate. }
  destruct (Invoice.status v) eqn:Hs.
  - destruct (has_expired v (now self (outside w))) eqn:Hexp.
    { rewrite (branch_expired self _ _ Hv Hs Hexp). intros [= <- <-].
      split; [reflexivity|]. right. left. exists v. repeat split; assumption. }
    destruct (find (WalletRepository.is_for (Invoice.user_id v) (Invoice.network v))
                (wallets w)) as [wallet|] eqn:Hw.
    2:{ rewrite (branch_no_wallet self _ _ Hv Hs Hexp Hw). intros [= <- <-].
        split; [reflexivity|]. left. repeat split. discriminate. }
    destruct (search_transactions_for_wallet self wallet v (outside w))
      as [e [[tx|]|ex]] eqn:Hread.
    + destruct (find (TransactionRepository.is_at (Transaction.hash tx)
                        (Transaction.network tx)) (transactions w))
        as [known|] eqn:Hknown.
      * rewrite (branch_duplicate self _ _ Hv Hs Hw Hexp Hread Hknown).
        intros [= <- <-]. split; [reflexivity|]. left.
        repeat split. intros x [= <-]. reflexivity.
      * rewrite (branch_paid self _ _ Hv Hs Hw Hexp Hread Hknown).
        intros [= <- <-]. split; [reflexivity|]. right. right.
        exists v, tx. repeat split; assumption.
    + rewrite (branch_nothing_found self _ _ Hv Hs Hw Hexp Hread).
      intros [= <- <-]. split; [reflexivity|]. left.
      repeat split. intros x [= <-]. reflexivity.
    + rewrite (branch_reader_raises self _ _ Hv Hs Hw Hexp Hread).
      intros [= <- <-]. split; [reflexivity|]. left. repeat split. discriminate.
  - rewrite (@check_invoice_status_settled E self invoice_id w v Hv);
      [|congruence].
    intros [= <- <-]. split; [reflexivity|]. left.
    repeat split. intros x [= <-]. reflexivity.
  - rewrite (@check_invoice_status_settled E self invoice_id w v Hv);
      [|congruence].
    intros [= <- <-]. split; [reflexivity|]. left.
    repeat split. intros x [= <-]. reflexivity.
Qed.

(** ** Errors of [check_invoice_status] *)

(** X1. For an identifier the invoice store does not know, both
    [check_invoice_status] and [get_invoice_status] raise the "not found"
    exception for that identifier after the one read of the invoice store:
    the clock, the wallet store and the blockchain reader are not consulted
    and nothing is written. *)
Theorem unknown_invoice_is_reported
  E (self : Collaborators E) (invoice_id : Z) (w : World E) :
  find (InvoiceRepository.has_id invoice_id) (invoices w) = None ->
  check_invoice_status self invoice_id w
  = (called (invoice_repository_get_invoice_by_id invoice_id) w,
     Raise (InvoiceNotFound invoice_id))
  /\ get_invoice_status invoice_id w
     = (called (invoice_repository_get_invoice_by_id invoice_id) w,
        Raise (InvoiceNotFound invoice_id)).
Proof.
  intros Hv.
  unfold check_invoice_status, get_invoice_status, bind, raise,
    InvoiceRepository.get_invoice_by_id.
  rewrite Hv. split; reflexivity.
Qed.

Lemma unknown_invoice_is_reported_witness :
  let self := Scenario.collaborators None None in
  let w := Scenario.world 100 (Scenario.invoice None PENDING) [] in
  check_invoice_status self 999 w
  = (called (invoice_repository_get_invoice_by_id 999) w, Raise (InvoiceNotFound 999))
  /\ get_invoice_status 999 w
     = (called (invoice_repository_get_invoice_by_id 999) w,
        Raise (InvoiceNotFound 999)).
Proof.
  intros self w.
  apply (@unknown_invoice_is_reported Z self 999 w). reflexivity.
Defined.

(** X2. A pending invoice whose owner has no wallet on its network: if the
    invoice is overdue it is set to EXPIRED all the same, the wallet never
    being looked up; otherwise the call raises the "wallet not found"
    exception for the invoice's user and network, having written nothing
    and without consulting the blockchain reader. *)
Theorem check_invoice_status_without_wallet
  E (self : Collaborators E) (invoice_id : Z) (w : World E) (v : Invoice.t) :
  find (InvoiceRepository.has_id invoice_id) (invoices w) = Some v ->
  Invoice.status v = PENDING ->
  find (WalletRepository.is_for (Invoice.user_id v) (Invoice.network v)) (wallets w)
  = None ->
  exists w',
    check_invoice_status self invoice_id w
    = (w', if has_expired v (now self (outside w))
           then Ok (Invoice.with_status EXPIRED v)
           else Raise (WalletNotFound (Invoice.user_id v) (Invoice.network v)))
    /\ transactions w' = transactions w
    /\ outside w' = outside w
    /\ calls w'
       = calls w
         ++ [invoice_repository_get_invoice_by_id invoice_id; time_time;
             if has_expired v (now self (outside w))
             then invoice_repository_update_invoice_status invoice_id EXPIRED
             else wallet_repository_get_wallet_for_user
                    (Invoice.user_id v) (Invoice.network v)]
    /\ (has_expired v (now self (outside w)) = false -> invoices w' = invoices w).
Proof.
  intros Hv Hs Hw.
  destruct (has_expired v (now self (outside w))) eqn:Hexp.
  - rewrite (branch_expired self _ _ Hv Hs Hexp).
    eexists. split; [reflexivity|].
    unfold after_clock, set_invoices, called. cbn [transactions outside calls].
    rewrite <- !app_assoc. repeat split. discriminate.
  - rewrite (branch_no_wallet self _ _ Hv Hs Hexp Hw).
    eexists. split; [reflexivity|].
    unfold after_clock, called. cbn [transactions outside calls invoices].
    rewrite <- !app_assoc. repeat split.
Qed.

Lemma check_invoice_status_without_wallet_witness :
  let self := Scenario.collaborators (Some (Scenario.payment 1)) None in
  let v := Scenario.invoice (Some 100) PENDING in
  let w : World Z := mkWorld [] [v] [] 50 [] in
  exists w',
    check_invoice_status self 1 w = (w', Raise (WalletNotFound 7 "bitcoin"))
    /\ transactions w' = []
    /\ outside w' = 50
    /\ calls w'
       = [] ++ [invoice_repository_get_invoice_by_id 1; time_time;
                wallet_repository_get_wallet_for_user 7 "bitcoin"]
    /\ (false = false -> invoices w' = [v]).
Proof.
  intros self v w.
  apply (@check_invoice_status_without_wallet Z self 1 w v); reflexivity.
Defined.

(** X3. When the blockchain reader raises, [check_invoice_status] raises the
    same exception and has written nothing: the three stores are as they
    were, so the check can simply be repeated. *)
Theorem check_invoice_status_reader_failure
  E (self : Collaborators E) (invoice_id : Z) (w : World E) (v : Invoice.t)
  (wallet : Wallet.t) (e : E) (ex : Exn) :
  find (InvoiceRepository.has_id invoice_id) (invoices w) = Some v ->
  Invoice.status v = PENDING ->
  has_expired v (now self (outside w)) = false ->
  find (WalletRepository.is_for (Invoice.user_id v) (Invoice.network v)) (wallets w)
  = Some wallet ->
  search_transactions_for_wallet self wallet v (outside w) = (e, Raise ex) ->
  exists w',
    check_invoice_status self invoice_id w = (w', Raise ex)
    /\ wallets w' = wallets w
    /\ invoices w' = invoices w
    /\ transactions w' = transactions w
    /\ outside w' = e.
Proof.
  intros Hv Hs Hexp Hw Hread.
  rewrite (branch_reader_raises self _ _ Hv Hs Hw Hexp Hread).
  eexists. split; [reflexivity|]. repeat split.
Qed.

Lemma check_invoice_status_reader_failure_witness :
  let self := Outage.collaborators false true true in
  let v := Scenario.invoice (Some 100) PENDING in
  let w := Scenario.world 50 v [] in
  exists w',
    check_invoice_status self 1 w = (w', Raise (CollaboratorError "node unreachable"))
    /\ wallets w' = wallets w
    /\ invoices w' = invoices w
    /\ transactions w' = transactions w
    /\ outside w' = 60.
Proof.
  intros self v w.
  apply (@check_invoice_status_reader_failure Z self 1 w v Scenario.wallet 60
           (CollaboratorError "node unreachable")); reflexivity.
Defined.

(** ** What a check can and cannot change *)

(** X4. A check of one invoice touches no other: every invoice with a
    different identifier is stored afterwards exactly as before, no invoice
    is added or removed, and the wallet store is unchanged, whatever the
    collaborators answer and however the call ends. *)
Theorem check_invoice_status_touches_one_invoice
  E (self : Collaborators E) (invoice_id other : Z) (w : World E) :
  other <> invoice_id ->
  let w' := fst (check_invoice_status self invoice_id w) in
  find (InvoiceRepository.has_id other) (invoices w')
  = find (InvoiceRepository.has_id other) (invoices w)
  /\ map Invoice.id (invoices w') = map Invoice.id (invoices w)
  /\ wallets w' = wallets w.
Proof.
  intros Hne w'. subst w'.
  destruct (check_invoice_status self invoice_id w) as [w' r] eqn:Hrun.
  destruct (check_invoice_status_cases self _ _ Hrun)
    as (Hw & [(Hi & _) | [(v & _ & _ & Hi & _) | (v & tx & _ & _ & _ & Hi & _)]]);
    cbn [fst]; rewrite Hi; repeat split; try exact Hw;
    try (apply find_other_after_update; exact Hne);
    apply ids_after_update.
Qed.

Lemma check_invoice_status_touches_one_invoice_witness :
  let self := Scenario.collaborators (Some (Scenario.payment 1)) None in
  let other := Invoice.with_id 2 (Scenario.invoice (Some 10) PENDING) in
  let w : World Z :=
    mkWorld [Scenario.wallet] [Scenario.invoice None PENDING; other] [] 100 [] in
  find (InvoiceRepository.has_id 2) (invoices (fst (check_invoice_status self 1 w)))
  = Some other
  /\ map Invoice.id (invoices (fst (check_invoice_status self 1 w))) = [1; 2]
  /\ wallets (fst (check_invoice_status self 1 w)) = [Scenario.wallet].
Proof.
  intros self other w.
  apply (@check_invoice_status_touches_one_invoice Z self 1 2 w). discriminate.
Defined.

(** X5. A check changes nothing of the invoice but its status, and the
    status only forwards: the invoice stored afterwards is the one stored
    before with a status that is either the same or, if it was PENDING,
    PAID or EXPIRED.  In particular no call takes an invoice back to
    PENDING or from PAID to EXPIRED or back. *)
Theorem check_invoice_status_only_advances_status
  E (self : Collaborators E) (invoice_id : Z) (w : World E) (v : Invoice.t) :
  find (InvoiceRepository.has_id invoice_id) (invoices w) = Some v ->
  exists s,
    find (InvoiceRepository.has_id invoice_id)
         (invoices (fst (check_invoice_status self invoice_id w)))
    = Some (Invoice.with_status s v)
    /\ may_follow (Invoice.status v) s.
Proof.
  intros Hv.
  destruct (check_invoice_status self invoice_id w) as [w' r] eqn:Hrun.
  destruct (check_invoice_status_cases self _ _ Hrun)
    as (_ & [(Hi & _) | [(v1 & Hv1 & Hs & Hi & _)
                        | (v1 & tx & Hv1 & Hs & _ & Hi & _)]]);
    cbn [fst]; rewrite Hi.
  - exists (Invoice.status v). rewrite with_status_same.
    split; [exact Hv | left; reflexivity].
  - rewrite Hv in Hv1. injection Hv1 as <-.
    exists EXPIRED. rewrite find_after_update, Hv.
    split; [reflexivity | right; auto].
  - rewrite Hv in Hv1. injection Hv1 as <-.
    exists PAID. rewrite find_after_update, Hv.
    split; [reflexivity | right; auto].
Qed.

Lemma check_invoice_status_only_advances_status_witness :
  let self := Scenario.collaborators (Some (Scenario.payment 1)) None in
  let v := Scenario.invoice (Some 100) PENDING in
  let w := Scenario.world 50 v [] in
  exists s,
    find (InvoiceRepository.has_id 1) (invoices (fst (check_invoice_status self 1 w)))
    = Some (Invoice.with_status s v)
    /\ may_follow PENDING s.
Proof.
  intros self v w.
  apply (@check_invoice_status_only_advances_status Z self 1 w v). reflexivity.
Defined.

(** X6. The invoice a successful check returns is the invoice the store
    holds after the call, so [get_invoice_status] right after it reports
    the status of the invoice returned. *)
Theorem check_invoice_status_returns_what_is_stored
  E (self : Collaborators E) (invoice_id : Z) (w w' : World E) (r : Invoice.t) :
  check_invoice_status self invoice_id w = (w', Ok r) ->
  find (InvoiceRepository.has_id invoice_id) (invoices w') = Some r
  /\ get_invoice_status invoice_id w'
     = (called (invoice_repository_get_invoice_by_id invoice_id) w',
        Ok (Invoice.status r)).
Proof.
  intros Hrun.
  assert (Hr : find (InvoiceRepository.has_id invoice_id) (invoices w') = Some r).
  { destruct (check_invoice_status_cases self _ _ Hrun)
      as (_ & [(Hi & _ & Hx) | [(v & Hv & _ & Hi & _ & Hok)
                               | (v & tx & Hv & _ & _ & Hi & _ & Hok)]]);
      rewrite Hi.
    - apply Hx. reflexivity.
    - rewrite find_after_update, Hv. injection Hok as ->. reflexivity.
    - rewrite find_after_update, Hv. injection Hok as ->. reflexivity. }
  split; [exact Hr|].
  unfold get_invoice_status, bind, ret, InvoiceRepository.get_invoice_by_id.
  rewrite Hr. reflexivity.
Qed.

Lemma check_invoice_status_returns_what_is_stored_witness :
  let self := Scenario.collaborators (Some (Scenario.payment 1)) None in
  let w := Scenario.world 50 (Scenario.invoice (Some 100) PENDING) [] in
  let w' := fst (check_invoice_status self 1 w) in
  find (InvoiceRepository.has_id 1) (invoices w')
  = Some (Scenario.invoice (Some 100) PAID)
  /\ get_invoice_status 1 w'
     = (called (invoice_repository_get_invoice_by_id 1) w', Ok PAID).
Proof.
  intros self w w'.
  apply (@check_invoice_status_returns_what_is_stored Z self 1 w w'
           (Scenario.invoice (Some 100) PAID)).
  reflexivity.
Defined.

(** ** Transactions under repeated checks *)

Lemma stored_at_app hash network l x :
  stored_at hash network (l ++ [x])
  = (stored_at hash network l
     + if TransactionRepository.is_at hash network x then 1 else 0)%nat.
Proof.
  unfold stored_at. rewrite filter_app, length_app. simpl.
  destruct (TransactionRepository.is_at hash network x); reflexivity.
Qed.

Lemma is_at_key hash network i tx :
  TransactionRepository.is_at hash network (Transaction.with_id i tx) = true ->
  hash = Transaction.hash tx /\ network = Transaction.network tx.
Proof.
  unfold TransactionRepository.is_at. simpl. intros H.
  apply andb_prop in H. destruct H as [Hh Hn].
  apply String.eqb_eq in Hh, Hn. auto.
Qed.

Lemma check_invoice_status_keeps_unique E (self : Collaborators E) invoice_id
  (w : World E) :
  transactions_unique (transactions w) ->
  transactions_unique (transactions (fst (check_invoice_status self invoice_id w))).
Proof.
  intros Hu.
  destruct (check_invoice_status self invoice_id w) as [w' r] eqn:Hrun.
  destruct (check_invoice_status_cases self _ _ Hrun)
    as (_ & [(_ & Ht & _) | [(v & _ & _ & _ & Ht & _)
                            | (v & tx & _ & _ & Hnew & _ & Ht & _)]]);
    cbn [fst]; rewrite Ht; try exact Hu.
  intros hash network. rewrite stored_at_app.
  destruct (TransactionRepository.is_at hash network
              (Transaction.with_id (next_id (map Transaction.id (transactions w))) tx))
    eqn:Hat.
  - apply is_at_key in Hat. destruct Hat as [-> ->].
    unfold stored_at. rewrite (filter_none _ _ Hnew). simpl. lia.
  - specialize (Hu hash network). lia.
Qed.

(** X7. No run of checks, of any invoices in any order and whatever the
    blockchain reader answers, ever makes the transaction store hold two
    records at one (hash, network): if it held none such before, it holds
    none after. *)
Theorem checks_keep_transactions_unique
  E (self : Collaborators E) (ids : list Z) (w : World E) :
  transactions_unique (transactions w) ->
  transactions_unique (transactions (checked self ids w)).
Proof.
  revert w. induction ids as [|invoice_id rest IH]; intros w Hu; simpl.
  - exact Hu.
  - apply IH, check_invoice_status_keeps_unique, Hu.
Qed.

(** Two pending invoices of one user are checked in turn, twice over, while
    the reader keeps yielding the same transaction: one record. *)
Lemma checks_keep_transactions_unique_witness :
  let self := Scenario.collaborators (Some (Scenario.payment 1)) None in
  let w : World Z :=
    mkWorld [Scenario.wallet]
      [Scenario.invoice None PENDING;
       Invoice.with_id 2 (Scenario.invoice None PENDING)] [] 100 [] in
  transactions_unique (transactions (checked self [1; 2; 1; 2] w))
  /\ transactions (checked self [1; 2; 1; 2] w) = [Transaction.mk 1 1 "0xabc" "bitcoin"].
Proof.
  intros self w. split.
  - apply (@checks_keep_transactions_unique Z self [1; 2; 1; 2] w).
    intros hash network. unfold stored_at. simpl. lia.
  - reflexivity.
Defined.

(** X8. However often one invoice is polled, and whatever the collaborators
    answer each time, at most one transaction is ever recorded by those
    checks, and none of the records already stored is altered or removed. *)
Theorem polling_records_at_most_one_transaction
  E (self : Collaborators E) (invoice_id : Z) (n : nat) (w : World E) :
  exists l,
    transactions (polled self invoice_id n w) = transactions w ++ l
    /\ (List.length l <= 1)%nat.
Proof.
  revert w. induction n as [|n IH]; intros w; simpl.
  - exists []. rewrite app_nil_r. split; [reflexivity | simpl; lia].
  - destruct (check_invoice_status self invoice_id w) as [w1 r] eqn:Hrun.
    cbn [fst].
    destruct (check_invoice_status_cases self _ _ Hrun)
      as (_ & [(_ & Ht & _) | [(v & _ & _ & _ & Ht & _)
                              | (v & tx & Hv & _ & _ & Hi & Ht & _)]]).
    + destruct (IH w1) as (l & Hl & Hlen). exists l. rewrite Hl, Ht. auto.
    + destruct (IH w1) as (l & Hl & Hlen). exists l. rewrite Hl, Ht. auto.
    + assert (Hv1 : find (InvoiceRepository.has_id invoice_id) (invoices w1)
                    = Some (Invoice.with_status PAID v)).
      { rewrite Hi, find_after_update, Hv. reflexivity. }
      destruct (@polled_settled E self invoice_id (Invoice.with_status PAID v) n w1 Hv1)
        as (_ & _ & Htn & _); [discriminate|].
      eexists. rewrite Htn, Ht. split; [reflexivity | simpl; lia].
Qed.

(** ** Wallet provisioning, beyond the fast path *)

(** A call of [get_wallet_for_user] never touches the invoice and
    transaction stores; it leaves the wallet store as it was, or appends to
    it the one wallet it returns, built from the generated credentials and
    the encrypted key. *)
Lemma get_wallet_for_user_cases E (self : Collaborators E) user_id network
  (w w' : World E) r :
  get_wallet_for_user self user_id network w = (w', r) ->
  invoices w' = invoices w
  /\ transactions w' = transactions w
  /\ ((wallets w' = wallets w
       /\ forall x, r = Ok x ->
                    find (WalletRepository.is_for user_id network) (wallets w) = Some x)
      \/ (exists credentials e1 blob,
             find (WalletRepository.is_for user_id network) (wallets w) = None
             /\ generate_wallet self (outside w) = (e1, Ok credentials)
             /\ encrypt_bytes self (WalletCredentials.private_key credentials) e1
                = (outside w', Ok blob)
             /\ r = Ok (Wallet.mk (next_id (map Wallet.id (wallets w))) user_id network
                          (WalletCredentials.address credentials) blob)
             /\ wallets w'
                = wallets w
                  ++ [Wallet.mk (next_id (map Wallet.id (wallets w))) user_id network
                        (WalletCredentials.address credentials) blob])).
Proof.
  destruct (find (WalletRepository.is_for user_id network) (wallets w))
    as [wallet|] eqn:Hw.
  - rewrite (get_wallet_for_user_existing self _ _ _ Hw). intros [= <- <-].
    repeat split. left. split; [reflexivity|]. intros x [= <-]. reflexivity.
  - unfold get_wallet_for_user, bind, ret, collaborate,
      WalletRepository.get_wallet_for_user, WalletRepository.save_wallet.
    rewrite Hw. autorewrite with world.
    destruct (generate_wallet self (outside w)) as [e1 [credentials|ex]] eqn:Hgen;
      cbn beta iota.
    2:{ intros [= <- <-]. repeat split. left. split; [reflexivity | discriminate]. }
    autorewrite with world. cbn [outside set_outside].
    destruct (encrypt_bytes self (WalletCredentials.private_key credentials) e1)
      as [e2 [blob|ex]] eqn:Henc; cbn beta iota.
    2:{ intros [= <- <-]. repeat split. left. split; [reflexivity | discriminate]. }
    cbn [wallets set_outside called Wallet.user_id Wallet.network].
    rewrite Hw. intros [= <- <-]. repeat split. right.
    exists credentials, e1, blob. repeat split. exact Henc.
Qed.

Lemma get_wallet_for_user_raised E (self : Collaborators E) user_id network
  (w w' : World E) ex :
  get_wallet_for_user self user_id network w = (w', Raise ex) ->
  wallets w' = wallets w
  /\ invoices w' = invoices w
  /\ transactions w' = transactions w.
Proof.
  intros Hrun.
  destruct (get_wallet_for_user_cases self _ _ _ Hrun)
    as (Hi & Ht & [(Hw & _) | (c & e1 & blob & _ & _ & _ & Hr & _)]).
  - auto.
  - discriminate.
Qed.

(** X9. When [get_wallet_for_user] raises (the key generator or the cipher
    failed), no wallet has been stored: the wallet, invoice and transaction
    stores are exactly as before. *)
Theorem get_wallet_for_user_failure_stores_nothing
  E (self : Collaborators E) (user_id : Z) (network : string) (w w' : World E)
  (ex : Exn) :
  get_wallet_for_user self user_id network w = (w', Raise ex) ->
  wallets w' = wallets w
  /\ invoices w' = invoices w
  /\ transactions w' = transactions w.
Proof. apply get_wallet_for_user_raised. Qed.

Lemma get_wallet_for_user_failure_stores_nothing_witness :
  let self := Outage.collaborators true true false in
  let w : World Z := mkWorld [] [] [] 100 [] in
  let w' := fst (get_wallet_for_user self 7 "bitcoin" w) in
  snd (get_wallet_for_user self 7 "bitcoin" w) = Raise (CollaboratorError "no key")
  /\ wallets w' = [] /\ invoices w' = [] /\ transactions w' = [].
Proof.
  intros self w w'. split; [reflexivity|].
  apply (@get_wallet_for_user_failure_stores_nothing Z self 7 "bitcoin" w w'
           (CollaboratorError "no key")).
  reflexivity.
Defined.

(** X10. Where no wallet is stored for (user, network) and the key
    generator and the cipher both answer, [get_wallet_for_user] stores and
    returns one new wallet for that user and network: its address is the
    generated one and its key material is what the cipher returned for the
    generated private key, never the private key as generated.  The calls
    are, in order: the lookup, the generation, the encryption, the save. *)
Theorem get_wallet_for_user_provisions
  E (self : Collaborators E) (user_id : Z) (network : string) (w : World E)
  (credentials : WalletCredentials.t) (e1 e2 : E) (blob : bytes) :
  find (WalletRepository.is_for user_id network) (wallets w) = None ->
  generate_wallet self (outside w) = (e1, Ok credentials) ->
  encrypt_bytes self (WalletCredentials.private_key credentials) e1 = (e2, Ok blob) ->
  let wallet :=
    Wallet.mk (next_id (map Wallet.id (wallets w))) user_id network
      (WalletCredentials.address credentials) blob in
  exists w',
    get_wallet_for_user self user_id network w = (w', Ok wallet)
    /\ wallets w' = wallets w ++ [wallet]
    /\ outside w' = e2
    /\ calls w'
       = calls w
         ++ [wallet_repository_get_wallet_for_user user_id network;
             network_client_generate_wallet;
             security_provider_encrypt_bytes
               (WalletCredentials.private_key credentials);
             wallet_repository_save_wallet
               (Wallet.mk 0 user_id network
                  (WalletCredentials.address credentials) blob)].
Proof.
  intros Hw Hgen Henc wallet. subst wallet.
  unfold get_wallet_for_user, bind, ret, collaborate,
    WalletRepository.get_wallet_for_user, WalletRepository.save_wallet.
  rewrite Hw. autorewrite with world. rewrite Hgen.
  autorewrite with world. cbn [outside set_outside]. rewrite Henc.
  cbn [wallets set_outside called Wallet.user_id Wallet.network]. rewrite Hw.
  eexists. split; [reflexivity|].
  cbn [wallets outside calls set_wallets called set_outside].
  rewrite <- !app_assoc. repeat split.
Qed.

Lemma get_wallet_for_user_provisions_witness :
  let self := Scenario.collaborators None None in
  let w : World Z := mkWorld [] [] [] 100 [] in
  exists w',
    get_wallet_for_user self 7 "bitcoin" w = (w', Ok Scenario.wallet)
    /\ wallets w' = [] ++ [Scenario.wallet]
    /\ outside w' = 100
    /\ calls w'
       = [] ++ [wallet_repository_get_wallet_for_user 7 "bitcoin";
                network_client_generate_wallet;
                security_provider_encrypt_bytes [Byte.x01; Byte.x02];
                wallet_repository_save_wallet
                  (Wallet.mk 0 7 "bitcoin" "0xA1" [Byte.x02; Byte.x01])].
Proof.
  intros self w.
  apply (@get_wallet_for_user_provisions Z self 7 "bitcoin" w
           (WalletCredentials.mk "0xA1" [Byte.x01; Byte.x02]) 100 100
           [Byte.x02; Byte.x01]); reflexivity.
Defined.




(** ** Creating invoices *)

Lemma below_next_id i ids : In i ids -> i < next_id ids.
Proof.
  unfold next_id. induction ids as [|j ids IH]; cbn [fold_right In]; [tauto|].
  intros [-> | Hin]; [lia | specialize (IH Hin); lia].
Qed.

Lemma next_id_is_fresh l :
  find (InvoiceRepository.has_id (next_id (map Invoice.id l))) l = None.
Proof.
  destruct (find (InvoiceRepository.has_id (next_id (map Invoice.id l))) l)
    as [x|] eqn:Hf; [|reflexivity].
  apply find_some in Hf. destruct Hf as [Hin Hid].
  unfold InvoiceRepository.has_id in Hid. apply Z.eqb_eq in Hid.
  pose proof (below_next_id _ _ (in_map Invoice.id _ _ Hin)). lia.
Qed.

Lemma find_saved_invoice l v :
  find (InvoiceRepository.has_id (next_id (map Invoice.id l)))
       (l ++ [Invoice.with_id (next_id (map Invoice.id l)) v])
  = Some (Invoice.with_id (next_id (map Invoice.id l)) v).
Proof.
  rewrite (find_app_none _ _ _ (next_id_is_fresh l)).
  unfold InvoiceRepository.has_id. simpl. rewrite Z.eqb_refl. reflexivity.
Qed.

(** X12. A crypto invoice that [create_crypto_invoice] returns has been
    appended to the invoice store and is the invoice found there under its
    identifier; apart from that identifier, which the store assigns, it is
    the invoice the service built: PENDING, with the user, network, amount,
    currency, contract address and expiration given, no fiat fields, and an
    update time equal to its creation time.  A wallet for its user and network is
    stored by then, so a later check of it finds both invoice and wallet. *)
Theorem create_crypto_invoice_is_stored_pending
  E (self : Collaborators E) (user_id : Z) (network : string)
  (crypto_amount : Decimal.t) (crypto_currency : string)
  (crypto_currency_address : option string) (expires_at : option Z)
  (w w' : World E) (invoice : Invoice.t) :
  create_crypto_invoice self user_id network crypto_amount crypto_currency
    crypto_currency_address expires_at w = (w', Ok invoice) ->
  invoices w' = invoices w ++ [invoice]
  /\ find (InvoiceRepository.has_id (Invoice.id invoice)) (invoices w') = Some invoice
  /\ Invoice.with_id 0 invoice
     = Invoice.mk 0 user_id
         (Invoice.created_at invoice) (Some (Invoice.created_at invoice))
         expires_at PENDING None None crypto_amount crypto_currency
         crypto_currency_address network
  /\ exists wallet,
       find (WalletRepository.is_for (Invoice.user_id invoice) (Invoice.network invoice))
            (wallets w') = Some wallet.
Proof.
  unfold create_crypto_invoice, bind, current_unix_time,
    InvoiceRepository.save_invoice.
  destruct (get_wallet_for_user self user_id network w) as [w1 [wallet|ex]] eqn:Hget;
    [|discriminate].
  destruct (get_wallet_for_user_cases self _ _ _ Hget) as (Hi & _ & _).
  destruct (get_wallet_for_user_stored self _ _ _ Hget) as [Hstored _].
  autorewrite with world. intros [= <- <-].
  cbn [invoices wallets set_invoices called Invoice.id Invoice.with_id
       Invoice.user_id Invoice.network Invoice.created_at].
  rewrite Hi. repeat split.
  - apply find_saved_invoice.
  - exists wallet. exact Hstored.
Qed.

(** The spec's happy path: a crypto invoice for 1.0 BTC on "bitcoin". *)
Lemma create_crypto_invoice_is_stored_pending_witness :
  let self := Scenario.collaborators None None in
  let w : World Z := mkWorld [] [] [] 100 [] in
  let amount := Decimal.mk false 10 (-1) in
  let invoice :=
    Invoice.mk 1 7 100 (Some 100) None PENDING None None amount "BTC" None "bitcoin" in
  let w' := fst (create_crypto_invoice self 7 "bitcoin" amount "BTC" None None w) in
  invoices w' = [] ++ [invoice]
  /\ find (InvoiceRepository.has_id 1) (invoices w') = Some invoice
  /\ Invoice.with_id 0 invoice
     = Invoice.mk 0 7 100 (Some 100) None PENDING None
         None amount "BTC" None "bitcoin"
  /\ exists wallet,
       find (WalletRepository.is_for 7 "bitcoin") (wallets w') = Some wallet.
Proof.
  intros self w amount invoice w'.
  apply (@create_crypto_invoice_is_stored_pending Z self 7 "bitcoin" amount "BTC"
           None None w w' invoice).
  reflexivity.
Defined.

(** X13. A fiat invoice that [create_fiat_invoice] returns has been appended
    to the invoice store and is the invoice found there under its
    identifier; apart from that identifier, which the store assigns, it is
    the invoice the service built: PENDING, with the user, network, fiat
    amount, fiat currency and expiration given, no contract address, and an
    update time equal to its creation time.  A wallet for its user and network is stored
    by then. *)
Theorem create_fiat_invoice_is_stored_pending
  E (self : Collaborators E) (user_id : Z) (network : string)
  (fiat_amount : Decimal.t) (fiat_currency : string) (expires_at : option Z)
  (w w' : World E) (invoice : Invoice.t) :
  create_fiat_invoice self user_id network fiat_amount fiat_currency expires_at w
  = (w', Ok invoice) ->
  invoices w' = invoices w ++ [invoice]
  /\ find (InvoiceRepository.has_id (Invoice.id invoice)) (invoices w') = Some invoice
  /\ Invoice.with_id 0 invoice
     = Invoice.mk 0 user_id
         (Invoice.created_at invoice) (Some (Invoice.created_at invoice))
         expires_at PENDING (Some fiat_amount) (Some fiat_currency)
         (Invoice.crypto_amount invoice) (Invoice.crypto_currency invoice)
         None network
  /\ exists wallet,
       find (WalletRepository.is_for (Invoice.user_id invoice) (Invoice.network invoice))
            (wallets w') = Some wallet.
Proof.
  unfold create_fiat_invoice, network_name, bind, raise, collaborate, decimal_mul,
    current_unix_time, InvoiceRepository.save_invoice.
  destruct (get_network_name self (outside w)) as [e1 [name|ex]]; [|discriminate].
  autorewrite with world. cbn [outside set_outside].
  destruct (get_exchange_rate self fiat_currency name e1) as [e2 [[rate|]|ex]];
    cbn beta iota; [| |discriminate].
  2:{ cbn [outside set_outside called].
      destruct (get_network_name self e2) as [e3 [name'|ex]]; discriminate. }
  cbn [outside set_outside].
  destruct (Decimal.mul (getcontext self e2) fiat_amount
              (ExchangeRate.reverted_rate rate)) as [d|]; [|discriminate].
  match goal with
  | |- context [get_wallet_for_user self user_id network ?w0] =>
      destruct (get_wallet_for_user self user_id network w0)
        as [w2 [wallet|ex]] eqn:Hget
  end; [|discriminate].
  destruct (get_wallet_for_user_cases self _ _ _ Hget) as (Hi & _ & _).
  destruct (get_wallet_for_user_stored self _ _ _ Hget) as [Hstored _].
  autorewrite with world.
  destruct (get_network_name self (outside w2)) as [e3 [name2|ex]];
    [|discriminate].
  intros [= <- <-].
  cbn [invoices wallets set_invoices set_outside called Invoice.id Invoice.with_id
       Invoice.user_id Invoice.network Invoice.created_at Invoice.crypto_amount
       Invoice.crypto_currency].
  rewrite Hi. cbn [invoices set_outside called]. repeat split.
  - apply find_saved_invoice.
  - exists wallet. exact Hstored.
Qed.

Lemma create_fiat_invoice_is_stored_pending_witness :
  let fiat_amount := Decimal.mk false 100 0 in
  let self :=
    Scenario.collaborators None
      (Some (Scenario.usd_rate (Decimal.mk false 5 (-4)))) in
  let w : World Z := mkWorld [] [] [] 100 [] in
  let invoice :=
    Invoice.mk 1 7 100 (Some 100) (Some 500) PENDING (Some fiat_amount) (Some "USD")
      (Decimal.mk false 500 (-4)) "ETH" None "erc20" in
  let w' := fst (create_fiat_invoice self 7 "erc20" fiat_amount "USD" (Some 500) w) in
  invoices w' = [] ++ [invoice]
  /\ find (InvoiceRepository.has_id 1) (invoices w') = Some invoice
  /\ Invoice.with_id 0 invoice
     = Invoice.mk 0 7 100 (Some 100) (Some 500) PENDING
         (Some fiat_amount) (Some "USD") (Decimal.mk false 500 (-4)) "ETH" None "erc20"
  /\ exists wallet,
       find (WalletRepository.is_for 7 "erc20") (wallets w') = Some wallet.
Proof.
  intros fiat_amount self w invoice w'.
  apply (@create_fiat_invoice_is_stored_pending Z self 7 "erc20" fiat_amount "USD"
           (Some 500) w w' invoice).
  reflexivity.
Defined.



(** X15. When [create_fiat_invoice] raises, no invoice has been saved and
    the transaction store is untouched; the wallet store is as before or
    has gained the one wallet provisioned for (user, network) before the
    failure (the network client is asked for its name once more after the
    wallet is provisioned, and may raise then). *)
Theorem create_fiat_invoice_failure_saves_no_invoice
  E (self : Collaborators E) (user_id : Z) (network : string)
  (fiat_amount : Decimal.t) (fiat_currency : string) (expires_at : option Z)
  (w w' : World E) (ex : Exn) :
  create_fiat_invoice self user_id network fiat_amount fiat_currency expires_at w
  = (w', Raise ex) ->
  invoices w' = invoices w
  /\ transactions w' = transactions w
  /\ (wallets w' = wallets w
      \/ exists wallet,
           wallets w' = wallets w ++ [wallet]
           /\ WalletRepository.is_for user_id network wallet = true
           /\ find (WalletRepository.is_for user_id network) (wallets w) = None).
Proof.
  unfold create_fiat_invoice, network_name, bind, raise, collaborate, decimal_mul,
    current_unix_time, InvoiceRepository.save_invoice.
  destruct (get_network_name self (outside w)) as [e1 [name|ex1]].
  2:{ intros [= <- _]. repeat split. left. reflexivity. }
  autorewrite with world. cbn [outside set_outside].
  destruct (get_exchange_rate self fiat_currency name e1) as [e2 [[rate|]|ex1]];
    cbn beta iota.
  3:{ intros [= <- _]. repeat split. left. reflexivity. }
  2:{ cbn [outside set_outside called].
      destruct (get_network_name self e2) as [e3 [name'|ex1]];
        intros [= <- _]; repeat split; left; reflexivity. }
  cbn [outside set_outside].
  destruct (Decimal.mul (getcontext self e2) fiat_amount
              (ExchangeRate.reverted_rate rate)) as [d|].
  2:{ intros [= <- _]. repeat split. left. reflexivity. }
  match goal with
  | |- context [get_wallet_for_user self user_id network ?w0] =>
      destruct (get_wallet_for_user self user_id network w0)
        as [w2 [wallet|ex1]] eqn:Hget
  end.
  2:{ intros [= <- _].
      destruct (get_wallet_for_user_raised self _ _ _ Hget)
        as (Hw & Hi & Ht).
      rewrite Hw, Hi, Ht. repeat split. left. reflexivity. }
  destruct (get_wallet_for_user_cases self _ _ _ Hget)
    as (Hi & Ht & [(Hw & _) | (c & e & blob & Hnone & _ & _ & _ & Hw)]);
    autorewrite with world;
    (destruct (get_network_name self (outside w2)) as [e3 [name2|ex1]];
     [discriminate|]);
    intros [= <- _];
    cbn [invoices transactions wallets set_outside called];
    rewrite Hi, Ht, Hw; cbn [invoices transactions wallets set_outside called];
    repeat split.
  - left. reflexivity.
  - right. eexists. split; [reflexivity|]. split; [|exact Hnone].
    unfold WalletRepository.is_for. simpl.
    rewrite Z.eqb_refl, String.eqb_refl. reflexivity.
Qed.

(** The network client answers the first request for its name and raises
    at the one made while the invoice is built: the wallet provisioned in
    between stays, no invoice is saved. *)
Lemma create_fiat_invoice_failure_saves_no_invoice_witness :
  let w : World Z := mkWorld [] [] [] 100 [] in
  let run :=
    create_fiat_invoice Flaky.collaborators 7 "erc20" (Decimal.mk false 100 0)
      "USD" None w in
  snd run = Raise (CollaboratorError "client closed")
  /\ List.length (wallets (fst run)) = 1%nat
  /\ invoices (fst run) = invoices w
  /\ transactions (fst run) = transactions w
  /\ (wallets (fst run) = wallets w
      \/ exists wallet,
           wallets (fst run) = wallets w ++ [wallet]
           /\ WalletRepository.is_for 7 "erc20" wallet = true
           /\ find (WalletRepository.is_for 7 "erc20") (wallets w) = None).
Proof.
  intros w run. split; [reflexivity|]. split; [reflexivity|].
  apply (@create_fiat_invoice_failure_saves_no_invoice Z Flaky.collaborators 7
           "erc20" (Decimal.mk false 100 0) "USD" None w (fst run)
           (CollaboratorError "client closed")).
  reflexivity.
Defined.

(** ** Sending funds *)

(** X16. [transfer_from_wallet] asks the network client to transfer only
    with the recipient, amount and options it was given, and only with the
    key obtained by decrypting the key material of the wallet
    [get_wallet_for_user] returned and decoding the result as UTF-8; and
    whatever happens, it leaves the invoice and transaction stores as they
    were. *)
Theorem transfer_from_wallet_uses_the_wallet_key
  E K (self : Collaborators E) (self' : TransferCollaborators E K)
  (user_id : Z) (network : string) (to_address : string) (amount : Decimal.t)
  (kwargs : K) (w w' : World E) (log : list (TransferCall K))
  (outcome : TransferOutcome) :
  transfer_from_wallet self self' user_id network to_address amount kwargs w
  = (w', log, outcome) ->
  invoices w' = invoices w
  /\ transactions w' = transactions w
  /\ forall key to amount' kwargs',
       In (network_client_transfer_amount key to amount' kwargs') log ->
       to = to_address /\ amount' = amount /\ kwargs' = kwargs
       /\ exists w1 wallet e2 plain,
            get_wallet_for_user self user_id network w = (w1, Ok wallet)
            /\ decrypt_bytes self' (Wallet.private_key_encrypted wallet) (outside w1)
               = (e2, Ok plain)
            /\ UTF8.decode plain = Some key.
Proof.
  unfold transfer_from_wallet.
  destruct (get_wallet_for_user self user_id network w) as [w1 [wallet|ex]] eqn:Hget;
    destruct (get_wallet_for_user_cases self _ _ _ Hget) as (Hi & Ht & _).
  2:{ intros [= <- <- _]. split; [exact Hi|]. split; [exact Ht|].
      intros ? ? ? ? []. }
  destruct (decrypt_bytes self' (Wallet.private_key_encrypted wallet) (outside w1))
    as [e2 [plain|ex]] eqn:Hdec.
  2:{ intros [= <- <- _]. split; [exact Hi|]. split; [exact Ht|].
      intros ? ? ? ? [H|[]]. discriminate. }
  destruct (UTF8.decode plain) as [key|] eqn:Hkey.
  2:{ intros [= <- <- _]. split; [exact Hi|]. split; [exact Ht|].
      intros ? ? ? ? [H|[]]. discriminate. }
  destruct (transfer_amount self' key to_address amount kwargs e2) as [e3 r].
  intros [= <- <- _]. split; [exact Hi|]. split; [exact Ht|].
  intros key' to amount' kwargs' [H|[H|[]]]; [discriminate|].
  injection H as <- <- <- <-. repeat split.
  exists w1, wallet, e2, plain. auto.
Qed.

Lemma transfer_from_wallet_uses_the_wallet_key_witness :
  let self := Scenario.collaborators None None in
  let w := Scenario.world 100 (Scenario.invoice None PENDING) [] in
  let run :=
    transfer_from_wallet self TransferScenario.collaborators 7 "bitcoin" "0xB2"
      (Decimal.mk false 5 (-1)) tt w in
  run = (set_outside 102 (called (wallet_repository_get_wallet_for_user 7 "bitcoin") w),
         [security_provider_decrypt_bytes [Byte.x02; Byte.x01];
          network_client_transfer_amount [1; 2] "0xB2" (Decimal.mk false 5 (-1)) tt],
         Transferred "0xfeed")
  /\ invoices (fst (fst run)) = invoices w
  /\ transactions (fst (fst run)) = transactions w.
Proof.
  intros self w run. split; [reflexivity|].
  destruct (@transfer_from_wallet_uses_the_wallet_key Z unit self
              TransferScenario.collaborators 7 "bitcoin" "0xB2"
              (Decimal.mk false 5 (-1)) tt w (fst (fst run)) (snd (fst run))
              (snd run) eq_refl) as (Hi & Ht & _).
  split; assumption.
Defined.



(** X18. When the stored key material cannot be decrypted, or decrypts to
    bytes that are not valid UTF-8, [transfer_from_wallet] ends with that
    failure after the one decryption: the network client is never asked to
    transfer, and no store is written. *)
Theorem transfer_from_wallet_without_key_sends_nothing
  E K (self : Collaborators E) (self' : TransferCollaborators E K)
  (user_id : Z) (network : string) (to_address : string) (amount : Decimal.t)
  (kwargs : K) (w : World E) (wallet : Wallet.t) (e2 : E) (r : Result bytes) :
  find (WalletRepository.is_for user_id network) (wallets w) = Some wallet ->
  decrypt_bytes self' (Wallet.private_key_encrypted wallet) (outside w) = (e2, r) ->
  match r with
  | Raise _ => True
  | Ok plain => UTF8.decode plain = None
  end ->
  transfer_from_wallet self self' user_id network to_address amount kwargs w
  = (set_outside e2 (called (wallet_repository_get_wallet_for_user user_id network) w),
     [security_provider_decrypt_bytes (Wallet.private_key_encrypted wallet)],
     match r with
     | Raise ex => TransferRaised ex
     | Ok _ => UnicodeDecodeError
     end).
Proof.
  intros Hw Hdec Hkey. unfold transfer_from_wallet.
  rewrite (get_wallet_for_user_existing self _ _ _ Hw).
  autorewrite with world. rewrite Hdec.
  destruct r as [plain|ex]; [rewrite Hkey|]; reflexivity.
Qed.

(** The stored blob decrypts to the two bytes 0x41 0xFF, which are not
    UTF-8. *)
Lemma transfer_from_wallet_without_key_sends_nothing_witness :
  let self := Scenario.collaborators None None in
  let wallet := Wallet.mk 1 7 "bitcoin" "0xA1" [Byte.xff; Byte.x41] in
  let w : World Z := mkWorld [wallet] [] [] 100 [] in
  transfer_from_wallet self TransferScenario.collaborators 7 "bitcoin" "0xB2"
    (Decimal.mk false 5 (-1)) tt w
  = (set_outside 100 (called (wallet_repository_get_wallet_for_user 7 "bitcoin") w),
     [security_provider_decrypt_bytes [Byte.xff; Byte.x41]],
     UnicodeDecodeError).
Proof.
  intros self wallet w.
  apply (@transfer_from_wallet_without_key_sends_nothing Z unit self
           TransferScenario.collaborators 7 "bitcoin" "0xB2"
           (Decimal.mk false 5 (-1)) tt w wallet 100
           (Ok [Byte.x41; Byte.xff])); reflexivity.
Defined.

(** X19. A transfer for a user who has no wallet on the network provisions
    one first: the new wallet is stored, and stays stored however the
    transfer ends, and it is the key material just stored that is handed to
    the security provider for decryption. *)
Theorem transfer_from_wallet_provisions_first
  E K (self : Collaborators E) (self' : TransferCollaborators E K)
  (user_id : Z) (network : string) (to_address : string) (amount : Decimal.t)
  (kwargs : K) (w : World E) (credentials : WalletCredentials.t) (e1 e2 : E)
  (blob : bytes) :
  find (WalletRepository.is_for user_id network) (wallets w) = None ->
  generate_wallet self (outside w) = (e1, Ok credentials) ->
  encrypt_bytes self (WalletCredentials.private_key credentials) e1 = (e2, Ok blob) ->
  let run :=
    transfer_from_wallet self self' user_id network to_address amount kwargs w in
  wallets (fst (fst run))
  = wallets w
    ++ [Wallet.mk (next_id (map Wallet.id (wallets w))) user_id network
          (WalletCredentials.address credentials) blob]
  /\ exists rest, snd (fst run) = security_provider_decrypt_bytes blob :: rest.
Proof.
  intros Hw Hgen Henc run. subst run. unfold transfer_from_wallet.
  assert (Hget : exists w1,
             get_wallet_for_user self user_id network w
             = (w1, Ok (Wallet.mk (next_id (map Wallet.id (wallets w))) user_id network
                          (WalletCredentials.address credentials) blob))
             /\ wallets w1
                = wallets w
                  ++ [Wallet.mk (next_id (map Wallet.id (wallets w))) user_id network
                        (WalletCredentials.address credentials) blob]).
  { unfold get_wallet_for_user, bind, ret, collaborate,
      WalletRepository.get_wallet_for_user, WalletRepository.save_wallet.
    rewrite Hw. autorewrite with world. rewrite Hgen.
    autorewrite with world. cbn [outside set_outside]. rewrite Henc.
    cbn [wallets set_outside called Wallet.user_id Wallet.network]. rewrite Hw.
    eexists. split; reflexivity. }
  destruct Hget as (w1 & -> & Hw1). cbn [Wallet.private_key_encrypted].
  destruct (decrypt_bytes self' blob (outside w1)) as [e3 [plain|ex]].
  2:{ cbn [fst snd]. autorewrite with world. split; [exact Hw1 | eauto]. }
  destruct (UTF8.decode plain) as [key|].
  2:{ cbn [fst snd]. autorewrite with world. split; [exact Hw1 | eauto]. }
  destruct (transfer_amount self' key to_address amount kwargs e3) as [e4 r].
  cbn [fst snd]. autorewrite with world. split; [exact Hw1 | eauto].
Qed.

Lemma transfer_from_wallet_provisions_first_witness :
  let self := Scenario.collaborators None None in
  let w : World Z := mkWorld [] [] [] 100 [] in
  let run :=
    transfer_from_wallet self TransferScenario.collaborators 7 "bitcoin" "0xB2"
      (Decimal.mk false 5 (-1)) tt w in
  wallets (fst (fst run)) = [] ++ [Scenario.wallet]
  /\ exists rest,
       snd (fst run) = security_provider_decrypt_bytes [Byte.x02; Byte.x01] :: rest.
Proof.
  intros self w run.
  apply (@transfer_from_wallet_provisions_first Z unit self
           TransferScenario.collaborators 7 "bitcoin" "0xB2"
           (Decimal.mk false 5 (-1)) tt w
           (WalletCredentials.mk "0xA1" [Byte.x01; Byte.x02]) 100 100
           [Byte.x02; Byte.x01]); reflexivity.
Defined.




(** ** Expiration, once more *)

(** X21. The expiration test is strict: while the clock has not gone past
    the expiration timestamp, the very second of expiry included, a pending
    invoice is not expired.  The blockchain reader is consulted, and if it
    finds nothing the invoice is returned PENDING and nothing is written. *)
Theorem check_invoice_status_open_through_expiry_second
  E (self : Collaborators E) (invoice_id : Z) (w : World E) (v : Invoice.t)
  (wallet : Wallet.t) (expires_at : Z) (e : E) :
  find (InvoiceRepository.has_id invoice_id) (invoices w) = Some v ->
  Invoice.status v = PENDING ->
  Invoice.expires_at v = Some expires_at ->
  now self (outside w) <= expires_at ->
  find (WalletRepository.is_for (Invoice.user_id v) (Invoice.network v)) (wallets w)
  = Some wallet ->
  search_transactions_for_wallet self wallet v (outside w) = (e, Ok None) ->
  check_invoice_status self invoice_id w
  = (after_search invoice_id w v wallet e, Ok v).
Proof.
  intros Hv Hs He Hle Hw Hread.
  apply (branch_nothing_found self _ _ Hv Hs Hw); [|exact Hread].
  unfold has_expired. rewrite He.
  replace (expires_at <? now self (outside w)) with false
    by (symmetry; apply Z.ltb_ge; exact Hle).
  apply andb_false_r.
Qed.

Lemma check_invoice_status_open_through_expiry_second_witness :
  let self := Scenario.collaborators None None in
  let v := Scenario.invoice (Some 100) PENDING in
  let w := Scenario.world 100 v [] in
  check_invoice_status self 1 w = (after_search 1 w v Scenario.wallet 110, Ok v).
Proof.
  intros self v w.
  apply (@check_invoice_status_open_through_expiry_second Z self 1 w v
           Scenario.wallet 100 110); reflexivity.
Defined.

(** X22. Expiry is decided before the blockchain is asked and never after:
    whenever a check returns a pending invoice as EXPIRED, the clock reading
    taken at the start of that call was already past the expiration
    timestamp, and the call consisted of the read of the invoice, the clock
    reading and the status update, the blockchain reader not being
    consulted. *)
Theorem check_invoice_status_expires_only_up_front
  E (self : Collaborators E) (invoice_id : Z) (w w' : World E) (v x : Invoice.t) :
  find (InvoiceRepository.has_id invoice_id) (invoices w) = Some v ->
  Invoice.status v = PENDING ->
  check_invoice_status self invoice_id w = (w', Ok x) ->
  Invoice.status x = EXPIRED ->
  has_expired v (now self (outside w)) = true
  /\ outside w' = outside w
  /\ calls w'
     = calls w ++ [invoice_repository_get_invoice_by_id invoice_id;
                   time_time;
                   invoice_repository_update_invoice_status invoice_id EXPIRED].
Proof.
  intros Hv Hs Hrun Hx.
  destruct (has_expired v (now self (outside w))) eqn:Hexp.
  - rewrite (branch_expired self _ _ Hv Hs Hexp) in Hrun.
    injection Hrun as <- _. split; [reflexivity|]. split; [reflexivity|].
    unfold after_clock, set_invoices, called. cbn [calls].
    rewrite <- !app_assoc. reflexivity.
  - exfalso.
    destruct (find (WalletRepository.is_for (Invoice.user_id v) (Invoice.network v))
                (wallets w)) as [wallet|] eqn:Hw.
    2:{ rewrite (branch_no_wallet self _ _ Hv Hs Hexp Hw) in Hrun. discriminate. }
    destruct (search_transactions_for_wallet self wallet v (outside w))
      as [e [[tx|]|ex]] eqn:Hread.
    + destruct (find (TransactionRepository.is_at (Transaction.hash tx)
                        (Transaction.network tx)) (transactions w))
        as [known|] eqn:Hknown.
      * rewrite (branch_duplicate self _ _ Hv Hs Hw Hexp Hread Hknown) in Hrun.
        injection Hrun as _ <-. congruence.
      * rewrite (branch_paid self _ _ Hv Hs Hw Hexp Hread Hknown) in Hrun.
        injection Hrun as _ <-. discriminate.
    + rewrite (branch_nothing_found self _ _ Hv Hs Hw Hexp Hread) in Hrun.
      injection Hrun as _ <-. congruence.
    + rewrite (branch_reader_raises self _ _ Hv Hs Hw Hexp Hread) in Hrun.
      discriminate.
Qed.

Lemma check_invoice_status_expires_only_up_front_witness :
  let self := Scenario.collaborators (Some (Scenario.payment 1)) None in
  let v := Scenario.invoice (Some 100) PENDING in
  let w := Scenario.world 200 v [] in
  let w' := fst (check_invoice_status self 1 w) in
  has_expired v (now self (outside w)) = true
  /\ outside w' = outside w
  /\ calls w'
     = calls w ++ [invoice_repository_get_invoice_by_id 1;
                   time_time;
                   invoice_repository_update_invoice_status 1 EXPIRED].
Proof.
  intros self v w w'.
  apply (@check_invoice_status_expires_only_up_front Z self 1 w w' v
           (Scenario.invoice (Some 100) EXPIRED)); reflexivity.
Defined.

(** ** The stores, as their tests use them *)

(** X23. What [save_invoice] returns can be read back: [get_invoice_by_id]
    under the identifier of the saved invoice returns that invoice, which
    is the invoice given but for its identifier, whatever the store already
    holds. *)
Theorem save_invoice_then_get_invoice_by_id
  E (w : World E) (v : Invoice.t) :
  exists saved,
    snd (InvoiceRepository.save_invoice v w) = Ok saved
    /\ Invoice.with_id 0 saved = Invoice.with_id 0 v
    /\ snd (InvoiceRepository.get_invoice_by_id (Invoice.id saved)
              (fst (InvoiceRepository.save_invoice v w)))
       = Ok (Some saved).
Proof.
  unfold InvoiceRepository.save_invoice, InvoiceRepository.get_invoice_by_id.
  eexists. split; [reflexivity|]. split; [reflexivity|].
  cbn [fst snd invoices set_invoices called Invoice.id Invoice.with_id].
  rewrite find_saved_invoice. reflexivity.
Qed.

(** X24. After [update_invoice_status] on a stored invoice,
    [get_invoice_by_id] returns that invoice with the new status and
    nothing else changed, and the update returned the same. *)
Theorem update_invoice_status_then_get_invoice_by_id
  E (w : World E) (invoice_id : Z) (s : InvoiceStatus) (v : Invoice.t) :
  find (InvoiceRepository.has_id invoice_id) (invoices w) = Some v ->
  snd (InvoiceRepository.update_invoice_status invoice_id s w)
  = Ok (Invoice.with_status s v)
  /\ snd (InvoiceRepository.get_invoice_by_id invoice_id
            (fst (InvoiceRepository.update_invoice_status invoice_id s w)))
     = Ok (Some (Invoice.with_status s v)).
Proof.
  intros Hv. rewrite (update_invoice_status_found _ _ _ Hv).
  unfold InvoiceRepository.get_invoice_by_id.
  cbn [fst snd invoices set_invoices called].
  rewrite find_after_update, Hv. split; reflexivity.
Qed.

Lemma update_invoice_status_then_get_invoice_by_id_witness :
  let w := Scenario.world 100 (Scenario.invoice None PENDING) [] in
  snd (InvoiceRepository.update_invoice_status 1 PAID w)
  = Ok (Scenario.invoice None PAID)
  /\ snd (InvoiceRepository.get_invoice_by_id 1
            (fst (InvoiceRepository.update_invoice_status 1 PAID w)))
     = Ok (Some (Scenario.invoice None PAID)).
Proof.
  intros w.
  apply (@update_invoice_status_then_get_invoice_by_id Z w 1 PAID
           (Scenario.invoice None PENDING)).
  reflexivity.
Defined.

(** X25. A transaction saved where none was recorded at its
    (hash, network) is the one [get_transaction_by_hash_and_network] then
    returns for that pair; it is the transaction given but for its
    identifier. *)
Theorem save_transaction_then_lookup
  E (w : World E) (tx : Transaction.t) :
  find (TransactionRepository.is_at (Transaction.hash tx) (Transaction.network tx))
       (transactions w) = None ->
  exists saved,
    snd (TransactionRepository.save_transaction tx w) = Ok saved
    /\ Transaction.with_id 0 saved = Transaction.with_id 0 tx
    /\ snd (TransactionRepository.get_transaction_by_hash_and_network
              (Transaction.hash tx) (Transaction.network tx)
              (fst (TransactionRepository.save_transaction tx w)))
       = Ok (Some saved).
Proof.
  intros Hnew.
  unfold TransactionRepository.save_transaction,
    TransactionRepository.get_transaction_by_hash_and_network.
  eexists. split; [reflexivity|]. split; [reflexivity|].
  cbn [fst snd transactions set_transactions called].
  rewrite (find_app_none _ _ _ Hnew), is_at_saved. reflexivity.
Qed.

Lemma save_transaction_then_lookup_witness :
  let w := Scenario.world 100 (Scenario.invoice None PENDING) [] in
  let tx := Transaction.mk 1 1 "0x1234567890abcdef" "bitcoin" in
  exists saved,
    snd (TransactionRepository.save_transaction tx w) = Ok saved
    /\ Transaction.with_id 0 saved = Transaction.with_id 0 tx
    /\ snd (TransactionRepository.get_transaction_by_hash_and_network
              "0x1234567890abcdef" "bitcoin"
              (fst (TransactionRepository.save_transaction tx w)))
       = Ok (Some saved).
Proof.
  intros w tx.
  apply (@save_transaction_then_lookup Z w tx). reflexivity.
Defined.
